(** * Brahma Muhurat calculator: a shallow embedding of the computational core

  The development follows the layout of the JavaScript sources:

  - [JS]            the fragment of JavaScript values the sources rely on
                    (numbers with NaN, [typeof], objects read by property
                    name, thrown errors, [try]/[catch]);
  - [Moment]        instants ([Date]) and the arithmetic of moment.js on them;
  - [Geo]           [src/utils/geo.js]      (coordinate and elevation checks);
  - [TimeUtil]      [src/utils/time.js]     ([parseDateInput]);
  - [Refraction]    [src/core/refraction.js];
  - [Astronomical]  [src/core/astronomical.js];
  - [Muhurat]       [src/core/muhurat.js];
  - [Index]         [src/index.js];
  - [TimeParse], [Julian], [TimeArith]   more of [src/utils/time.js]
                    ([parseTime], the Julian day numbers, arithmetic on
                    dates);
  - [GeoZones]      more of [src/utils/geo.js] (elevation zones, compass
                    directions, time-zone suggestions);
  - [MuhuratMetrics] the spiritual metrics of [src/core/muhurat.js];
  - [BrahmaMuhurat] [calculate] of [src/index.js].

  Numbers.  A JavaScript number is read as the real number it denotes, and
  arithmetic on numbers is exact; rounding of binary64 and the two
  infinities are not modelled.  NaN is kept as a value of its own wherever
  the sources can meet it (validation, a property that is not there).
  Third-party libraries (SunCalc, astronomy-engine, the parsing and the
  time-zone data of moment) are collected in one record of functions,
  [Libraries], about which nothing is assumed. *)

From Stdlib Require Import Reals Lra ZArith Lia List String Bool.
Import ListNotations.

Open Scope string_scope.
Open Scope R_scope.

(* ================================================================== *)
(** * JavaScript values *)
(* ================================================================== *)

Module JS.

(** A number: NaN or a (finite) real. *)
Inductive number : Type :=
| NaN
| Num (r : R).

(** A [Date] holds a whole number of milliseconds since the epoch, or NaN
    ("Invalid Date"). *)
Inductive Date : Type :=
| InvalidDate
| Instant (ms : Z).

Inductive value : Type :=
| VUndefined
| VNull
| VBoolean (b : bool)
| VNumber (n : number)
| VString (s : string)
| VDate (d : Date)            (* instanceof Date *)
| VMoment (d : Date)          (* moment.isMoment *)
| VObject.                    (* any other object *)

(** [a < b] on dates compares their time values; NaN compares false. *)
Definition date_lt (a b : Date) : Prop :=
  match a, b with
  | Instant x, Instant y => (x < y)%Z
  | _, _ => False
  end.

(** An object literal is its list of properties, in the order written. *)
Definition object := list (string * value).

Definition typeof (v : value) : string :=
  match v with
  | VUndefined => "undefined"
  | VBoolean _ => "boolean"
  | VNumber _ => "number"
  | VString _ => "string"
  | VNull | VDate _ | VMoment _ | VObject => "object"
  end.

(** [o.k]: the first property named [k], [undefined] when there is none. *)
Fixpoint get (o : object) (k : string) : value :=
  match o with
  | [] => VUndefined
  | (k', v) :: o' => if String.eqb k' k then v else get o' k
  end.

(** ** Relational operators on numbers: every comparison with NaN is false. *)

Definition ltb (x y : number) : bool :=
  match x, y with
  | Num a, Num b => if Rlt_dec a b then true else false
  | _, _ => false
  end.

Definition gtb (x y : number) : bool := ltb y x.

Definition isNaN (x : number) : bool :=
  match x with NaN => true | Num _ => false end.

(** ** Arithmetic: NaN is absorbing. *)

Definition lift2 (f : R -> R -> R) (x y : number) : number :=
  match x, y with
  | Num a, Num b => Num (f a b)
  | _, _ => NaN
  end.

Definition sub : number -> number -> number := lift2 Rminus.
(** Division; the sources only divide by the literals 15 and 60. *)
Definition div : number -> number -> number := lift2 Rdiv.

(** Truncation towards zero (ToIntegerOrInfinity). *)
Definition truncate (x : R) : Z :=
  if Rle_dec 0 x then Int_part x else (- Int_part (- x))%Z.

(** [Math.floor]. *)
Definition Math_floor (x : number) : number :=
  match x with NaN => NaN | Num r => Num (IZR (Int_part r)) end.

(** [Math.round]: the nearest integer, ties towards +infinity. *)
Definition Math_round (x : number) : number :=
  match x with NaN => NaN | Num r => Num (IZR (Int_part (r + / 2))) end.

(** [a % b]: the remainder has the sign of the dividend. *)
Definition rem (x y : number) : number :=
  match x, y with
  | Num a, Num b =>
      if Req_dec_T b 0 then NaN else Num (a - b * IZR (truncate (a / b)))
  | _, _ => NaN
  end.

(** ToNumber on the values that the sources use arithmetically; the
    conversion of a string or an object is delegated. *)
Section Conversions.
Variable StringToNumber : string -> number.
Variable NumberToString : number -> string.

Definition ToNumber (v : value) : number :=
  match v with
  | VUndefined => NaN
  | VNull => Num 0
  | VBoolean b => Num (if b then 1 else 0)
  | VNumber n => n
  | VString s => StringToNumber s
  | VDate InvalidDate | VMoment InvalidDate => NaN
  | VDate (Instant t) | VMoment (Instant t) => Num (IZR t)
  | VObject => NaN
  end.

(** ToString as a template literal applies it; how a date or a moment
    prints is not modelled. *)
Definition ToString (v : value) : string :=
  match v with
  | VUndefined => "undefined"
  | VNull => "null"
  | VBoolean b => if b then "true" else "false"
  | VNumber n => NumberToString n
  | VString s => s
  | VDate _ | VMoment _ | VObject => "[object Object]"
  end.
End Conversions.

(** The real denoted by a value already checked to be a number other than
    NaN (the coordinates after [validateCoordinates]). *)
Definition real_of (v : value) : R :=
  match v with
  | VNumber (Num r) => r
  | _ => 0
  end.

(** A parameter with a default value: [None] is an omitted argument. *)
Definition default (d : R) (o : option R) : R :=
  match o with Some x => x | None => d end.

(** ** Errors and completions *)

(** The constructor used in [throw new C(message)]. *)
Inductive ErrorClass : Type := Error | TypeError | RangeError.

Record exn : Type := mkExn { exn_class : ErrorClass; message : string }.

(** The outcome of running a function body: it returns or it throws. *)
Inductive completion (A : Type) : Type :=
| Normal (a : A)
| Throw (e : exn).
Arguments Normal {A} a.
Arguments Throw {A} e.

Definition throw {A : Type} (c : ErrorClass) (msg : string) : completion A :=
  Throw (mkExn c msg).

Definition bind {A B : Type} (m : completion A) (k : A -> completion B)
  : completion B :=
  match m with
  | Normal a => k a
  | Throw e => Throw e
  end.

(** [try { body } catch (error) { handler(error) }]. *)
Definition try_catch {A : Type} (body : completion A)
           (handler : exn -> completion A) : completion A :=
  match body with
  | Normal a => Normal a
  | Throw e => handler e
  end.

(** [try { return body } catch (error) { return handler(error) }] where the
    handler cannot throw. *)
Definition try_else {A : Type} (body : completion A) (handler : exn -> A) : A :=
  match body with
  | Normal a => a
  | Throw e => handler e
  end.

Definition throws {A : Type} (m : completion A) : Prop :=
  exists e, m = Throw e.

Definition returns {A : Type} (m : completion A) : Prop :=
  exists a, m = Normal a.

End JS.

Import JS.

Declare Scope js_scope.
Delimit Scope js_scope with js.
Notation "x <- m ;; k" := (bind m (fun x => k))
  (at level 61, m at next level, right associativity) : js_scope.
Notation "m ;;; k" := (bind m (fun _ => k))
  (at level 61, right associativity) : js_scope.
Open Scope js_scope.

(* ================================================================== *)
(** * src/utils/geo.js *)
(* ================================================================== *)

Module Geo.

(** [validateCoordinates(latitude, longitude)].  The first branch of the
    [match] is the case where both [typeof] tests find ['number']. *)
Definition validateCoordinates (latitude longitude : value) : completion unit :=
  match latitude, longitude with
  | VNumber lat, VNumber lon =>
      if ltb lat (Num (-90)) || gtb lat (Num 90) then
        throw Error "Latitude must be between -90 and 90 degrees"
      else if ltb lon (Num (-180)) || gtb lon (Num 180) then
        throw Error "Longitude must be between -180 and 180 degrees"
      else if isNaN lat || isNaN lon then
        throw Error "Latitude and longitude must be valid numbers"
      else Normal tt
  | _, _ => throw Error "Latitude and longitude must be numbers"
  end.

(** [validateElevation(elevation)]. *)
Definition validateElevation (elevation : value) : completion unit :=
  match elevation with
  | VNumber e =>
      if ltb e (Num (-500)) || gtb e (Num 9000) then
        throw Error "Elevation must be between -500 and 9000 meters"
      else if isNaN e then
        throw Error "Elevation must be a valid number"
      else Normal tt
  | _ => throw Error "Elevation must be a number"
  end.

(** [validateTimezone(timezone)]; [zone] is [moment.tz.zone], read as
    "the zone is known".  The empty string is falsy. *)
Definition validateTimezone (zone : string -> bool) (timezone : value)
  : completion unit :=
  match timezone with
  | VString tz =>
      if String.eqb tz "" then throw Error "Timezone must be a non-empty string"
      else if negb (zone tz) then throw Error ("Invalid timezone: " ++ tz)
      else Normal tt
  | _ => throw Error "Timezone must be a non-empty string"
  end.

End Geo.

(* ================================================================== *)
(** * Third-party libraries *)
(* ================================================================== *)

(** The arithmetic of moment.js on instants.  [add] and [subtract] shift the
    underlying [Date] by the amount converted to milliseconds, and the
    [Date] keeps whole milliseconds; a NaN amount counts as zero; an invalid
    moment stays invalid.  [diff] truncates towards zero. *)
Module Moment.

Inductive unit_of_time : Type := minutes | seconds.

Definition milliseconds (u : unit_of_time) : R :=
  match u with minutes => 60000 | seconds => 1000 end.

Definition isValid (d : Date) : bool :=
  match d with Instant _ => true | InvalidDate => false end.

(** [moment(d).add(amount, u).toDate()] *)
Definition add (d : Date) (amount : number) (u : unit_of_time) : Date :=
  match d, amount with
  | InvalidDate, _ => InvalidDate
  | Instant t, NaN => Instant t
  | Instant t, Num x => Instant (truncate (IZR t + x * milliseconds u))
  end.

(** [moment(d).subtract(amount, u).toDate()] *)
Definition subtract (d : Date) (amount : number) (u : unit_of_time) : Date :=
  match d, amount with
  | InvalidDate, _ => InvalidDate
  | Instant t, NaN => Instant t
  | Instant t, Num x => Instant (truncate (IZR t - x * milliseconds u))
  end.

(** [moment(a).diff(moment(b), u)] *)
Definition diff (a b : Date) (u : unit_of_time) : number :=
  match a, b with
  | Instant x, Instant y => Num (IZR (truncate (IZR (x - y) / milliseconds u)))
  | _, _ => NaN
  end.

End Moment.

(** The times returned by [SunCalc.getTimes], as far as the sources read
    them. *)
Module SunCalc.

Record Times : Type := mkTimes {
  nightEnd : Date;
  nauticalDawn : Date;
  dawn : Date;
  sunrise : Date;
  sunset : Date;
  dusk : Date;
  nauticalDusk : Date;
  night : Date
}.

End SunCalc.

(** Everything the sources obtain from outside: the JavaScript runtime's
    conversions between numbers and strings and its local calendar, the
    parsers and the zone table of moment-timezone, SunCalc, and the
    rise/set search of astronomy-engine.  The search may throw or find
    nothing ([null]). *)
Record Libraries : Type := mkLibraries {
  StringToNumber : string -> number;
  NumberToString : number -> string;
  (** [new Date(date.getFullYear(), 0, 0)], in milliseconds *)
  startOfYear : Z -> Z;
  (** [moment.tz.zone(name)] is not null *)
  moment_tz_zone : string -> bool;
  (** [moment(input)] *)
  moment_parse : value -> Date;
  (** [moment(input, format, true)] *)
  moment_parse_strict : string -> string -> Date;
  (** [moment.tz(date, timezone)] *)
  moment_tz : value -> value -> Date;
  (** [SunCalc.getTimes(date, latitude, longitude)] *)
  SunCalc_getTimes : Date -> R -> R -> SunCalc.Times;
  (** [Astronomy.SearchRiseSet(Sun, Observer(latitude, longitude, elevation),
      Rise, MakeTime(date), 1)], then [.date] of what was found *)
  Astronomy_SearchRiseSet : R -> R -> R -> Date -> completion (option Date)
}.

(* ================================================================== *)
(** * src/utils/time.js *)
(* ================================================================== *)

Module TimeUtil.

Section WithLibraries.
Variable lib : Libraries.

Definition formats : list string :=
  [ "YYYY-MM-DD"; "YYYY-MM-DD HH:mm:ss"; "DD/MM/YYYY"; "MM/DD/YYYY";
    "DD-MM-YYYY"; "YYYY/MM/DD" ].

(** The [for] loop of [parseDateInput]: the first format that parses. *)
Fixpoint first_valid (input : string) (fs : list string) : option Date :=
  match fs with
  | [] => None
  | format :: fs' =>
      let parsed := moment_parse_strict lib input format in
      if Moment.isValid parsed then Some parsed else first_valid input fs'
  end.

(** [parseDateInput(input)] *)
Definition parseDateInput (input : value) : completion Date :=
  let invalid : completion Date :=
    throw Error ("Invalid date format: " ++ ToString (NumberToString lib) input) in
  match input with
  | VDate d => Normal d
  | VMoment d => Normal d
  | VString s =>
      match first_valid s formats with
      | Some d => Normal d
      | None =>
          let parsed := moment_parse lib input in
          if Moment.isValid parsed then Normal parsed else invalid
      end
  | _ => invalid
  end.

End WithLibraries.

End TimeUtil.

(* ================================================================== *)
(** * src/core/refraction.js *)
(* ================================================================== *)

Module Refraction.

(** The methods of [RefractionCalculator].  [_extrapolateRefraction] calls
    [this.calculateRefraction] back, so the methods are first written
    against the method they call ([self]), and the knot is tied below. *)
Section Methods.

(** [this.model] *)
Variable model : string.
(** [this.calculateRefraction]; [None] stands for a call that did not
    return within the allotted depth. *)
Variable self : R -> option R -> option R -> option R -> option R.

(** Saturated water vapor pressure (Magnus formula). *)
Definition _saturatedVaporPressure (temperature : R) : R :=
  6.1078 * exp ((17.27 * temperature) / (temperature + 237.3)).

Definition _calculateRefractiveIndex (pressure temperature humidity : R) : R :=
  let T := temperature + 273.15 in
  let nDry :=
    1 + (pressure / T) * (287.6155 + 1.62887 / T + 0.01360 / (T * T)) * 1e-6 in
  let waterVaporPressure := humidity * _saturatedVaporPressure temperature in
  let nWater := 1 + (waterVaporPressure / T) * (1792.0 - 67.2 / T) * 1e-6 in
  nDry + nWater - 1.

(** Linear extrapolation from the refraction at the horizon, which is asked
    for with every atmospheric argument omitted. *)
Definition _extrapolateRefraction (altitude : R) : option R :=
  match self 0 None None None with
  | Some horizonRefraction =>
      let gradient := horizonRefraction / 34 in
      Some (horizonRefraction + (altitude * gradient))
  | None => None
  end.

Definition _bennettRefraction (altitude pressure temperature : R) : option R :=
  if Rlt_dec altitude (-2) then _extrapolateRefraction altitude
  else
    let h := Rmax altitude 0.01 in
    let cotangent := 1 / tan ((h + 7.31 / (h + 4.4)) * PI / 180) in
    let standardRefraction := cotangent in
    let pressureCorrection := pressure / 1013.25 in
    let temperatureCorrection := 283.15 / (273.15 + temperature) in
    Some (standardRefraction * pressureCorrection * temperatureCorrection).

Definition _saemundssonRefraction (altitude pressure temperature : R)
  : option R :=
  if Rlt_dec altitude (-2) then _extrapolateRefraction altitude
  else
    let h := Rmax altitude 0.01 in
    let refraction := 1.02 / tan ((h + 10.3 / (h + 5.11)) * PI / 180) in
    let pressureCorrection := pressure / 1013.25 in
    let temperatureCorrection := 283.15 / (273.15 + temperature) in
    Some (refraction * pressureCorrection * temperatureCorrection).

Definition _rigorousRefraction (altitude pressure temperature humidity : R)
  : option R :=
  if Rlt_dec altitude (-2) then _extrapolateRefraction altitude
  else
    let h := Rmax altitude 0.01 in
    let n := _calculateRefractiveIndex pressure temperature humidity in
    let beta := (h + 90) * PI / 180 in
    let refraction := (n - 1) * tan (PI / 2 - beta) * 180 / PI * 60 in
    Some (Rmax refraction 0).

(** The body of [calculateRefraction(apparentAltitude, pressure = 1013.25,
    temperature = 15, humidity = 0.5)]. *)
Definition calculateRefraction_body (apparentAltitude : R)
           (pressure temperature humidity : option R) : option R :=
  let pressure := default 1013.25 pressure in
  let temperature := default 15 temperature in
  let humidity := default 0.5 humidity in
  if String.eqb model "rigorous" then
    _rigorousRefraction apparentAltitude pressure temperature humidity
  else if String.eqb model "saemundsson" then
    _saemundssonRefraction apparentAltitude pressure temperature
  else
    _bennettRefraction apparentAltitude pressure temperature.

End Methods.

(** [calculateRefraction] unfolded to a given depth of calls. *)
Fixpoint calculateRefraction_fuel (fuel : nat) (model : string)
  : R -> option R -> option R -> option R -> option R :=
  match fuel with
  | O => fun _ _ _ _ => None
  | S fuel' => calculateRefraction_body model (calculateRefraction_fuel fuel' model)
  end.

(** Two levels are all the method ever uses ([calculateRefraction_fuel_enough]
    below), which gives the method as a total function. *)
Definition calculateRefraction (model : string) (apparentAltitude : R)
           (pressure temperature humidity : option R) : R :=
  match calculateRefraction_fuel 2 model apparentAltitude
                                 pressure temperature humidity with
  | Some r => r
  | None => 0
  end.

(** [calculateSunriseRefraction(pressure = 1013.25, temperature = 15,
    humidity = 0.5)] *)
Definition calculateSunriseRefraction (model : string)
           (pressure temperature humidity : option R) : R :=
  let pressure := default 1013.25 pressure in
  let temperature := default 15 temperature in
  let humidity := default 0.5 humidity in
  let geometricDepression := -0.833 in
  calculateRefraction model geometricDepression
                      (Some pressure) (Some temperature) (Some humidity).

(** [refractionToTimeCorrection(refractionArcmin, latitude, declination)],
    in seconds. *)
Definition refractionToTimeCorrection (refractionArcmin latitude declination : R)
  : R :=
  let refractionDeg := refractionArcmin / 60 in
  let hourAngleRate := 360 / (24 * 3600) in
  let lat := latitude * PI / 180 in
  let dec := declination * PI / 180 in
  let correctionFactor := cos dec * cos lat in
  (refractionDeg / hourAngleRate) * correctionFactor.

Section WithLibraries.
Variable lib : Libraries.

(** [_getDayOfYear(date)] for a valid date. *)
Definition _getDayOfYear (date : Z) : Z :=
  let start := startOfYear lib date in
  let diff := (date - start)%Z in
  Int_part (IZR diff / (1000 * 60 * 60 * 24)).

Definition _calculateSolarDeclination (date : Z) : R :=
  let dayOfYear := IZR (_getDayOfYear date) in
  23.45 * sin ((360 * (284 + dayOfYear) / 365) * PI / 180).

(** [applySunriseCorrection(sunriseTime, latitude, longitude, pressure,
    temperature, humidity)].  On an invalid date [getTime()] is NaN, every
    later quantity is NaN and so is the date built from them. *)
Definition applySunriseCorrection (model : string) (sunriseTime : Date)
           (latitude longitude pressure temperature humidity : R) : Date :=
  match sunriseTime with
  | InvalidDate => InvalidDate
  | Instant t =>
      let declination := _calculateSolarDeclination t in
      let refraction :=
        calculateSunriseRefraction model (Some pressure) (Some temperature)
                                   (Some humidity) in
      let timeCorrection :=
        refractionToTimeCorrection refraction latitude declination in
      Instant (truncate (IZR t - timeCorrection * 1000))
  end.

End WithLibraries.

(** [RefractionCalculator.validateInputs(altitude, pressure, temperature,
    humidity)] *)
Definition validateInputs (altitude pressure temperature humidity : R)
  : completion unit :=
  if ltb (Num altitude) (Num (-90)) || gtb (Num altitude) (Num 90) then
    throw Error "Altitude must be between -90 and 90 degrees"
  else if ltb (Num pressure) (Num 500) || gtb (Num pressure) (Num 1100) then
    throw Error "Pressure must be between 500 and 1100 mbar"
  else if ltb (Num temperature) (Num (-50)) || gtb (Num temperature) (Num 50) then
    throw Error "Temperature must be between -50 and 50 Celsius"
  else if ltb (Num humidity) (Num 0) || gtb (Num humidity) (Num 1) then
    throw Error "Humidity must be between 0 and 1"
  else Normal tt.

End Refraction.

(* ================================================================== *)
(** * src/core/astronomical.js *)
(* ================================================================== *)

Module Astronomical.

(** Elevation correction for the sunrise time. *)
Definition _calculateElevationCorrection (elevation : R) : R :=
  -1.76 * sqrt elevation / 60.

(** Basic atmospheric refraction correction, in seconds. *)
Definition _calculateBasicRefraction (latitude : R) : R :=
  let standardRefraction := 34 in
  let latitudeCorrection := cos (latitude * PI / 180) in
  (standardRefraction * latitudeCorrection * 4) / 60.

Definition _calculateAtmosphericRefraction (pressure temperature latitude : R)
  : R :=
  let standardPressure := 1013.25 in
  let standardTemperature := 15 in
  let pressureFactor := pressure / standardPressure in
  let tempFactor := (273.15 + standardTemperature) / (273.15 + temperature) in
  let baseRefraction := _calculateBasicRefraction latitude in
  baseRefraction * pressureFactor * tempFactor.

Section WithLibraries.
Variable lib : Libraries.
(** [this.precision] *)
Variable precision : string.

(** Basic precision: SunCalc only. *)
Definition _calculateBasicSunrise (latitude longitude : R) (dateObj : Date)
  : Date :=
  let times := SunCalc_getTimes lib dateObj latitude longitude in
  SunCalc.sunrise times.

(** High precision: SunCalc, then the elevation correction (only above sea
    level), then the basic refraction. *)
Definition _calculateHighPrecisionSunrise (latitude longitude elevation : R)
           (dateObj : Date) : Date :=
  let times := SunCalc_getTimes lib dateObj latitude longitude in
  let sunrise := SunCalc.sunrise times in
  let sunrise :=
    if Rlt_dec 0 elevation then
      let elevationCorrection := _calculateElevationCorrection elevation in
      Moment.add sunrise (Num elevationCorrection) Moment.minutes
    else sunrise in
  let basicRefraction := _calculateBasicRefraction latitude in
  Moment.subtract sunrise (Num basicRefraction) Moment.seconds.

(** Maximum precision: the whole computation sits in a [try]; whatever is
    thrown there (by the library, or by reading [.date] of a search that
    found nothing) is caught and answered with the high-precision result.
    The [console.warn] of the handler is not modelled. *)
Definition _calculateMaximumPrecisionSunrise
           (latitude longitude elevation : R) (dateObj : Date)
           (pressure temperature : R) : completion Date :=
  try_catch
    (found <- Astronomy_SearchRiseSet lib latitude longitude elevation dateObj ;;
     match found with
     | None => throw TypeError "Cannot read properties of null (reading 'date')"
     | Some sunrise_date =>
         let refraction :=
           _calculateAtmosphericRefraction pressure temperature latitude in
         Normal (Moment.subtract sunrise_date (Num refraction) Moment.seconds)
     end)
    (fun _error =>
       Normal (_calculateHighPrecisionSunrise latitude longitude elevation
                                              dateObj)).

(** [calculateSunrise(latitude, longitude, elevation, date, timezone,
    pressure = 1013.25, temperature = 15)] *)
Definition calculateSunrise (latitude longitude elevation : R)
           (date timezone : value) (pressure temperature : option R)
  : completion Date :=
  let pressure := default 1013.25 pressure in
  let temperature := default 15 temperature in
  let dateObj := moment_tz lib date timezone in
  if String.eqb precision "maximum" then
    _calculateMaximumPrecisionSunrise latitude longitude elevation dateObj
                                      pressure temperature
  else if String.eqb precision "high" then
    Normal (_calculateHighPrecisionSunrise latitude longitude elevation dateObj)
  else
    Normal (_calculateBasicSunrise latitude longitude dateObj).

(** [getTwilightTimes]: the times of SunCalc under the names of the
    result. *)
Record TwilightTimes : Type := mkTwilightTimes {
  astronomicalDawn : Date;
  nauticalDawn : Date;
  civilDawn : Date;
  sunrise : Date;
  sunset : Date;
  civilDusk : Date;
  nauticalDusk : Date;
  astronomicalDusk : Date
}.

Definition getTwilightTimes (latitude longitude : R) (date timezone : value)
  : TwilightTimes :=
  let dateObj := moment_tz lib date timezone in
  let times := SunCalc_getTimes lib dateObj latitude longitude in
  {| astronomicalDawn := SunCalc.nightEnd times;
     nauticalDawn := SunCalc.nauticalDawn times;
     civilDawn := SunCalc.dawn times;
     sunrise := SunCalc.sunrise times;
     sunset := SunCalc.sunset times;
     civilDusk := SunCalc.dusk times;
     nauticalDusk := SunCalc.nauticalDusk times;
     astronomicalDusk := SunCalc.night times |}.

(** [_formatDuration(minutes)]: the template [`${hours}h ${mins}m`]. *)
Definition _formatDuration (minutes : number) : string :=
  let hours := Math_floor (div minutes (Num 60)) in
  let mins := rem minutes (Num 60) in
  NumberToString lib hours ++ "h " ++ NumberToString lib mins ++ "m".

(** [calculateDayLength]: the object it returns, property by property. *)
Definition calculateDayLength (latitude longitude : R) (date timezone : value)
  : object :=
  let times := getTwilightTimes latitude longitude date timezone in
  let dayLength := Moment.diff (sunset times) (sunrise times) Moment.minutes in
  let nightLength := sub (Num 1440) dayLength in
  [ ("dayLength", VNumber dayLength);
    ("nightLength", VNumber nightLength);
    ("dayLengthFormatted", VString (_formatDuration dayLength));
    ("nightLengthFormatted", VString (_formatDuration nightLength)) ].

End WithLibraries.

End Astronomical.

(* ================================================================== *)
(** * src/core/muhurat.js *)
(* ================================================================== *)

Module Muhurat.

(** The parameter object of [calculate].  The coordinates, the date and the
    time zone are the values the validation inspects; the four optional
    numbers have defaults. *)
Record Params : Type := mkParams {
  latitude : value;
  longitude : value;
  elevation : option R;
  date : value;
  timezone : value;
  pressure : option R;
  temperature : option R;
  humidity : option R
}.

(** [{ ...params, date }] *)
Definition with_date (params : Params) (d : value) : Params :=
  {| latitude := latitude params;
     longitude := longitude params;
     elevation := elevation params;
     date := d;
     timezone := timezone params;
     pressure := pressure params;
     temperature := temperature params;
     humidity := humidity params |}.

(** What [_calculateMuhuratTimes] returns. *)
Record MuhuratTimes : Type := mkMuhuratTimes {
  start : Date;
  end_ : Date;
  durationMinutes : number
}.

(** What [calculate] returns, without the formatted strings, the
    astronomical data, the spiritual metrics and the calculation details:
    these are computed after the window, from it, and cannot throw. *)
Record Result : Type := mkResult {
  location_latitude : value;
  location_longitude : value;
  location_elevation : R;
  location_timezone : value;
  result_date : Date;
  sunrise_time : Date;
  brahmaMuhurat_start_time : Date;
  brahmaMuhurat_end_time : Date;
  brahmaMuhurat_duration_minutes : number;
  brahmaMuhurat_traditionType : string
}.

(** An element of the array returned by [calculateBatch]. *)
Inductive BatchItem : Type :=
| ItemResult (result : Result)
| ItemError (date : value) (error : string).

Section WithLibraries.
Variable lib : Libraries.
(** The options of the constructor, after their defaults. *)
Variable precision : string.
Variable traditionType : string.
Variable refractionModel : string.

(** [_validateInputs(params)] *)
Definition _validateInputs (params : Params) : completion unit :=
  Geo.validateCoordinates (latitude params) (longitude params) ;;;
  Geo.validateTimezone (moment_tz_zone lib) (timezone params) ;;;
  if negb (Moment.isValid (moment_parse lib (date params))) then
    throw Error "Invalid date format. Use YYYY-MM-DD or valid date string"
  else Normal tt.

(** [_calculatePreciseSunrise] *)
Definition _calculatePreciseSunrise (latitude longitude elevation : R)
           (date timezone : value) (pressure temperature humidity : R)
  : completion Date :=
  baseSunrise <- Astronomical.calculateSunrise lib precision
                   latitude longitude elevation date timezone
                   (Some pressure) (Some temperature) ;;
  if String.eqb precision "maximum" then
    let correctedSunrise :=
      Refraction.applySunriseCorrection lib refractionModel baseSunrise
        latitude longitude pressure temperature humidity in
    Normal correctedSunrise
  else Normal baseSunrise.

(** [_calculateDayLength] *)
Definition _calculateDayLength (latitude longitude : R) (date timezone : value)
  : object :=
  Astronomical.calculateDayLength lib latitude longitude date timezone.

(** [_calculateMuhuratTimes(sunrise, latitude, longitude, date, timezone)] *)
Definition _calculateMuhuratTimes (sunrise : Date) (latitude longitude : R)
           (date timezone : value) : MuhuratTimes :=
  let sunriseMoment := sunrise in
  if String.eqb traditionType "extended" then
    {| start := Moment.subtract sunriseMoment (Num 120) Moment.minutes;
       end_ := sunrise;
       durationMinutes := Num 120 |}
  else if String.eqb traditionType "smarta" then
    {| start := Moment.subtract sunriseMoment (Num 96) Moment.minutes;
       end_ := sunrise;
       durationMinutes := Num 96 |}
  else if String.eqb traditionType "dynamic" then
    let dayLength := _calculateDayLength latitude longitude date timezone in
    let muhuratDuration :=
      Math_round (div (ToNumber (StringToNumber lib) (get dayLength "totalMinutes"))
                      (Num 15)) in
    {| start := Moment.subtract sunriseMoment muhuratDuration Moment.minutes;
       end_ := sunrise;
       durationMinutes := muhuratDuration |}
  else
    {| start := Moment.subtract sunriseMoment (Num 96) Moment.minutes;
       end_ := sunrise;
       durationMinutes := Num 96 |}.

(** [calculate(params)] *)
Definition calculate (params : Params) : completion Result :=
  let latitude_ := latitude params in
  let longitude_ := longitude params in
  let elevation_ := default 0 (elevation params) in
  let date_ := date params in
  let timezone_ := timezone params in
  let pressure_ := default 1013.25 (pressure params) in
  let temperature_ := default 15 (temperature params) in
  let humidity_ := default 0.5 (humidity params) in
  _validateInputs params ;;;
  sunrise <- _calculatePreciseSunrise (real_of latitude_) (real_of longitude_)
               elevation_ date_ timezone_ pressure_ temperature_ humidity_ ;;
  let muhuratTimes :=
    _calculateMuhuratTimes sunrise (real_of latitude_) (real_of longitude_)
                           date_ timezone_ in
  parsed <- TimeUtil.parseDateInput lib date_ ;;
  Normal {| location_latitude := latitude_;
            location_longitude := longitude_;
            location_elevation := elevation_;
            location_timezone := timezone_;
            result_date := parsed;
            sunrise_time := sunrise;
            brahmaMuhurat_start_time := start muhuratTimes;
            brahmaMuhurat_end_time := end_ muhuratTimes;
            brahmaMuhurat_duration_minutes := durationMinutes muhuratTimes;
            brahmaMuhurat_traditionType := traditionType |}.

(** [calculateBatch(params, dates)]: [dates.map] of a [try]/[catch]. *)
Definition calculateBatch (params : Params) (dates : list value)
  : list BatchItem :=
  map (fun date =>
         try_else
           (result <- calculate (with_date params date) ;;
            Normal (ItemResult result))
           (fun error => ItemError date (message error)))
      dates.

End WithLibraries.

End Muhurat.

(* ================================================================== *)
(** * src/index.js *)
(* ================================================================== *)

Module Index.

(** The second argument of [calculateBatch]: an array, or anything else. *)
Inductive DatesArgument : Type :=
| AnArray (dates : list value)
| NotAnArray (v : value).

Section WithLibraries.
Variable lib : Libraries.
Variable precision : string.
Variable traditionType : string.
Variable refractionModel : string.

(** [calculateBatch(baseParams, dates)] of [BrahmaMuhuratCalculator] *)
Definition calculateBatch (baseParams : Muhurat.Params) (dates : DatesArgument)
  : completion (list Muhurat.BatchItem) :=
  match dates with
  | NotAnArray _ => throw Error "Dates must be an array"
  | AnArray dates =>
      Normal (Muhurat.calculateBatch lib precision traditionType refractionModel
                                     baseParams dates)
  end.

End WithLibraries.

End Index.

(* ================================================================== *)
(** * A stand-in for the libraries *)
(* ================================================================== *)

(** Fixed answers in place of the libraries, enough to run the calculator
    on two days.  Varanasi on 18 February 2024: sunrise at 06:30 and
    sunset at 17:50 local time (UTC+5:30).  Northern Norway on 21 June
    2024, under the midnight sun: SunCalc has no sunrise and no sunset to
    give and answers with invalid dates.  astronomy-engine gives no
    answer. *)
Module Example.

Definition midnight : Z := 1708194600000.
Definition sunrise_ms : Z := 1708218000000.
Definition sunset_ms : Z := 1708258800000.

Definition times : SunCalc.Times :=
  {| SunCalc.nightEnd := Instant (sunrise_ms - 4800000);
     SunCalc.nauticalDawn := Instant (sunrise_ms - 3000000);
     SunCalc.dawn := Instant (sunrise_ms - 1320000);
     SunCalc.sunrise := Instant sunrise_ms;
     SunCalc.sunset := Instant sunset_ms;
     SunCalc.dusk := Instant (sunset_ms + 1320000);
     SunCalc.nauticalDusk := Instant (sunset_ms + 3000000);
     SunCalc.night := Instant (sunset_ms + 4800000) |}.

Definition midsummer_midnight : Z := 1718920800000.

Definition midnight_sun_times : SunCalc.Times :=
  {| SunCalc.nightEnd := InvalidDate;
     SunCalc.nauticalDawn := InvalidDate;
     SunCalc.dawn := InvalidDate;
     SunCalc.sunrise := InvalidDate;
     SunCalc.sunset := InvalidDate;
     SunCalc.dusk := InvalidDate;
     SunCalc.nauticalDusk := InvalidDate;
     SunCalc.night := InvalidDate |}.

Definition parse (input : value) : Date :=
  match input with
  | VString s =>
      if String.eqb s "2024-02-18" then Instant midnight
      else if String.eqb s "2024-06-21" then Instant midsummer_midnight
      else InvalidDate
  | VDate d | VMoment d => d
  | _ => InvalidDate
  end.

Definition getTimes (date : Date) (latitude longitude : R) : SunCalc.Times :=
  match date with
  | Instant t => if Z.eqb t midnight then times else midnight_sun_times
  | InvalidDate => midnight_sun_times
  end.

Definition lib : Libraries :=
  {| StringToNumber := fun _ => NaN;
     NumberToString := fun _ => "";
     startOfYear := fun _ => 1703961000000%Z;
     moment_tz_zone := fun tz =>
       String.eqb tz "Asia/Kolkata" || String.eqb tz "Europe/Oslo";
     moment_parse := parse;
     moment_parse_strict := fun s format =>
       if String.eqb format "YYYY-MM-DD" then parse (VString s) else InvalidDate;
     moment_tz := fun date _ => parse date;
     SunCalc_getTimes := getTimes;
     Astronomy_SearchRiseSet := fun _ _ _ _ =>
       throw Error "no rise event" |}.

Definition varanasi : Muhurat.Params :=
  {| Muhurat.latitude := VNumber (Num 25.317644);
     Muhurat.longitude := VNumber (Num 83.005495);
     Muhurat.elevation := Some 80;
     Muhurat.date := VString "2024-02-18";
     Muhurat.timezone := VString "Asia/Kolkata";
     Muhurat.pressure := None;
     Muhurat.temperature := None;
     Muhurat.humidity := None |}.

Definition arctic : Muhurat.Params :=
  {| Muhurat.latitude := VNumber (Num 70);
     Muhurat.longitude := VNumber (Num 25);
     Muhurat.elevation := None;
     Muhurat.date := VString "2024-06-21";
     Muhurat.timezone := VString "Europe/Oslo";
     Muhurat.pressure := None;
     Muhurat.temperature := None;
     Muhurat.humidity := None |}.

End Example.

(* ================================================================== *)
(** * src/utils/time.js: parseTime and the Julian day numbers *)
(* ================================================================== *)

Module TimeParse.
Import Ascii JS.

(** [s.split(sep)] for a separator of one character: the pieces between
    the occurrences, always at least one. *)
Fixpoint split (sep : ascii) (s : string) : list string :=
  match s with
  | EmptyString => [EmptyString]
  | String c s' =>
      if Ascii.eqb c sep then EmptyString :: split sep s'
      else match split sep s' with
           | piece :: pieces => String c piece :: pieces
           | [] => [String c EmptyString]
           end
  end.

(** The white space that [parseInt] skips, among the ASCII characters:
    TAB, LF, VT, FF, CR and SPACE. *)
Definition is_white_space (c : ascii) : bool :=
  let n := nat_of_ascii c in
  ((9 <=? n) && (n <=? 13))%nat || (n =? 32)%nat.

Fixpoint trim_start (s : string) : string :=
  match s with
  | String c s' => if is_white_space c then trim_start s' else s
  | EmptyString => EmptyString
  end.

Definition digit_value (c : ascii) : option Z :=
  let n := Z.of_nat (nat_of_ascii c) in
  if ((48 <=? n) && (n <=? 57))%Z then Some (n - 48)%Z else None.

(** The value of the longest prefix of decimal digits, [None] when the
    string does not start with a digit; [acc] is the value read so far. *)
Fixpoint leading_digits (s : string) (acc : option Z) : option Z :=
  match s with
  | String c s' =>
      match digit_value c with
      | Some d =>
          leading_digits s' (Some (10 * match acc with Some a => a | None => 0 end + d)%Z)
      | None => acc
      end
  | EmptyString => acc
  end.

(** The integer [parseInt(s, 10)] reads, [None] for NaN: white space is
    skipped, then an optional sign, then digits as far as they go. *)
Definition parseInt_integer (s : string) : option Z :=
  let s := trim_start s in
  let '(sign, s) :=
    match s with
    | String "-" s' => ((-1)%Z, s')
    | String "+" s' => (1%Z, s')
    | _ => (1%Z, s)
    end in
  match leading_digits s None with
  | Some z => Some (sign * z)%Z
  | None => None
  end.

(** [parseInt(s, 10)] *)
Definition parseInt (s : string) : number :=
  match parseInt_integer s with
  | Some z => Num (IZR z)
  | None => NaN
  end.

(** What [parseTime] returns. *)
Record ParsedTime : Type := mkParsedTime {
  hours : number;
  minutes : number;
  seconds : number
}.

(** [parseTime(timeString)] *)
Definition parseTime (timeString : string) : completion ParsedTime :=
  let parts := split ":" timeString in
  if (List.length parts <? 2)%nat || (3 <? List.length parts)%nat then
    throw Error "Invalid time format. Use HH:mm or HH:mm:ss"
  else
    let hours := parseInt (nth 0 parts "") in
    let minutes := parseInt (nth 1 parts "") in
    let seconds :=
      if (List.length parts =? 3)%nat then parseInt (nth 2 parts "") else Num 0 in
    if ltb hours (Num 0) || gtb hours (Num 23) then
      throw Error "Hours must be between 0 and 23"
    else if ltb minutes (Num 0) || gtb minutes (Num 59) then
      throw Error "Minutes must be between 0 and 59"
    else if ltb seconds (Num 0) || gtb seconds (Num 59) then
      throw Error "Seconds must be between 0 and 59"
    else Normal {| hours := hours; minutes := minutes; seconds := seconds |}.

(** How often a character occurs in a string. *)
Fixpoint occurrences (c : ascii) (s : string) : nat :=
  match s with
  | EmptyString => O
  | String c' s' => (if Ascii.eqb c' c then 1 else 0) + occurrences c s'
  end.

(** Two decimal digits, as the fields of [HH:mm:ss] are written. *)
Definition two_digits (n : Z) : string :=
  String (ascii_of_nat (Z.to_nat (48 + n / 10)))
    (String (ascii_of_nat (Z.to_nat (48 + n mod 10))) EmptyString).

(** A component passes its range check when it is NaN or an integer of
    the range. *)
Definition passes (n : number) (high : Z) : Prop :=
  n = NaN \/ exists z, n = Num (IZR z) /\ (0 <= z <= high)%Z.

End TimeParse.

Module Julian.

(** The calendar fields of a [Date] in local time, as [getFullYear()],
    [getMonth()] and [getDate()] return them. *)
Record LocalDate : Type := mkLocalDate {
  fullYear : Z;
  monthIndex : Z;
  dayOfMonth : Z
}.

Definition leap (y : Z) : bool :=
  (y mod 4 =? 0)%Z && (negb (y mod 100 =? 0)%Z || (y mod 400 =? 0)%Z).

Definition days_in_month (y mi : Z) : Z :=
  if (mi =? 1)%Z then (if leap y then 29 else 28)%Z
  else if (mi =? 3)%Z || (mi =? 5)%Z || (mi =? 8)%Z || (mi =? 10)%Z then 30%Z
  else 31%Z.

(** [new Date(year, monthIndex, day)], as far as it is the date with
    exactly these fields.  The constructor reads the years 0 to 99 as 1900
    to 1999, carries months and days out of range over, and has no date
    some 275000 years from 1970 on: those calls are left out ([None]). *)
Definition new_Date (year monthIndex day : Z) : option LocalDate :=
  if ((100 <=? year) && (year <=? 275000) &&
      (0 <=? monthIndex) && (monthIndex <=? 11) &&
      (1 <=? day) && (day <=? days_in_month year monthIndex))%Z
  then Some {| fullYear := year; monthIndex := monthIndex; dayOfMonth := day |}
  else None.

(** The arguments [julianToDate(jdn)] hands to [new Date], for a whole
    number [jdn]. *)
Definition julianToDate_arguments (jdn : Z) : Z * Z * Z :=
  let a := (jdn + 32044)%Z in
  let b := ((4 * a + 3) / 146097)%Z in
  let c := (a - (146097 * b) / 4)%Z in
  let d := ((4 * c + 3) / 1461)%Z in
  let e := (c - (1461 * d) / 4)%Z in
  let m := ((5 * e + 2) / 153)%Z in
  let day := (e - (153 * m + 2) / 5 + 1)%Z in
  let month := (m + 3 - 12 * (m / 10))%Z in
  let year := (100 * b + d - 4800 + m / 10)%Z in
  (year, (month - 1)%Z, day).

(** [julianToDate(jdn)] *)
Definition julianToDate (jdn : Z) : option LocalDate :=
  let '(year, monthIndex, day) := julianToDate_arguments jdn in
  new_Date year monthIndex day.

(** [dateToJulian(date)] *)
Definition dateToJulian (date : LocalDate) : Z :=
  let year := fullYear date in
  let month := (monthIndex date + 1)%Z in
  let day := dayOfMonth date in
  let a := ((14 - month) / 12)%Z in
  let y := (year + 4800 - a)%Z in
  let m := (month + 12 * a - 3)%Z in
  (day + (153 * m + 2) / 5 + 365 * y + y / 4 - y / 100 + y / 400 - 32045)%Z.

End Julian.

(* ================================================================== *)
(** * More of JavaScript's numbers *)
(* ================================================================== *)

Module JSMath.

Definition add : number -> number -> number := lift2 Rplus.
Definition mul : number -> number -> number := lift2 Rmult.

(** [Math.abs] *)
Definition Math_abs (x : number) : number :=
  match x with NaN => NaN | Num r => Num (Rabs r) end.

(** [x <= y] and [x >= y]: false as soon as one side is NaN. *)
Definition leb (x y : number) : bool :=
  match x, y with
  | Num a, Num b => if Rle_dec a b then true else false
  | _, _ => false
  end.

Definition geb (x y : number) : bool := leb y x.

(** [array[index]] for an array of strings: the element when the index is
    a whole number from 0 to the length, [undefined] otherwise. *)
Definition element (array : list string) (index : number) : value :=
  match index with
  | NaN => VUndefined
  | Num r =>
      let i := Int_part r in
      if Req_dec_T r (IZR i) then
        if (0 <=? i)%Z then
          match nth_error array (Z.to_nat i) with
          | Some s => VString s
          | None => VUndefined
          end
        else VUndefined
      else VUndefined
  end.

(** [array.includes(s)] *)
Definition includes (array : list string) (s : string) : bool :=
  existsb (String.eqb s) array.

(** [!v]: the values that count as false. *)
Definition falsy (v : value) : bool :=
  match v with
  | VUndefined | VNull => true
  | VBoolean b => negb b
  | VNumber NaN => true
  | VNumber (Num r) => if Req_dec_T r 0 then true else false
  | VString s => String.eqb s ""
  | VDate _ | VMoment _ | VObject => false
  end.

End JSMath.

(* ================================================================== *)
(** * src/utils/geo.js: zones, compass and time-zone suggestions *)
(* ================================================================== *)

Module GeoZones.
Import JSMath.

(** [getElevationZone(elevation)].  Past the validation and the test for
    [undefined] and [null] the elevation is a number other than NaN. *)
Definition getElevationZone (elevation : value) : completion object :=
  match elevation with
  | VUndefined => Normal tt
  | _ => Geo.validateElevation elevation
  end ;;;
  match elevation with
  | VUndefined | VNull =>
      Normal [ ("zone", VString "Unknown");
               ("description", VString "Elevation not specified");
               ("pressureEstimate", VNumber (Num 1013.25)) ]
  | _ =>
      let e := real_of elevation in
      let '(zone, description, pressureEstimate) :=
        if Rlt_dec e 0 then
          ("Below Sea Level",
           "Below sea level - may affect atmospheric calculations",
           1013.25 + Rabs e * 0.012)
        else if Rlt_dec e 500 then
          ("Low Elevation",
           "Near sea level - minimal atmospheric effects",
           1013.25 - e * 0.012)
        else if Rlt_dec e 1500 then
          ("Moderate Elevation",
           "Moderate elevation - some atmospheric effects",
           1013.25 - e * 0.012)
        else if Rlt_dec e 3000 then
          ("High Elevation",
           "High elevation - significant atmospheric effects",
           1013.25 - e * 0.012)
        else
          ("Very High Elevation",
           "Very high elevation - major atmospheric corrections needed",
           1013.25 - e * 0.012) in
      Normal [ ("zone", VString zone);
               ("description", VString description);
               ("pressureEstimate", VNumber (Num (Rmax pressureEstimate 300)));
               ("elevationFeet", VNumber (Num (e * 3.28084))) ]
  end.

Definition directions : list string :=
  [ "N"; "NNE"; "NE"; "ENE"; "E"; "ESE"; "SE"; "SSE";
    "S"; "SSW"; "SW"; "WSW"; "W"; "WNW"; "NW"; "NNW" ].

(** [getCompassDirection(bearing)] *)
Definition getCompassDirection (bearing : number) : value :=
  let index := rem (Math_round (div bearing (Num 22.5))) (Num 16) in
  element directions index.

Definition priorityTimezones : list string :=
  [ "Asia/Kolkata"; "Asia/Dubai"; "Europe/London"; "America/New_York";
    "America/Los_Angeles"; "Australia/Sydney"; "Asia/Tokyo" ].

(** [getTimezoneSuggestions(latitude, longitude)].  [names] is
    [moment.tz.names()] and [utcOffset tz] the offset of the zone [tz], in
    minutes, at the time of the call. *)
Definition getTimezoneSuggestions (names : list string)
           (utcOffset : string -> number) (latitude longitude : value)
  : completion (list string) :=
  Geo.validateCoordinates latitude longitude ;;;
  let offsetHours := Math_round (div (Num (real_of longitude)) (Num 15)) in
  let offsetMinutes := mul offsetHours (Num 60) in
  let suggestions :=
    filter (fun tz => leb (Math_abs (sub (utcOffset tz) offsetMinutes)) (Num 30))
           names in
  let prioritySuggestions :=
    filter (fun tz => includes priorityTimezones tz) suggestions in
  let otherSuggestions :=
    filter (fun tz => negb (includes priorityTimezones tz)) suggestions in
  Normal (prioritySuggestions ++ firstn 5 otherSuggestions)%list.

End GeoZones.

(* ================================================================== *)
(** * src/utils/time.js: arithmetic on dates *)
(* ================================================================== *)

Module TimeArith.







End TimeArith.

(* ================================================================== *)
(** * src/core/muhurat.js: the spiritual metrics *)
(* ================================================================== *)

Module MuhuratMetrics.
Import JSMath.

(** [_getOptimalActivities(muhuratTimes, _astronomicalData)] *)
Definition _getOptimalActivities (muhuratTimes : Muhurat.MuhuratTimes)
  : list string :=
  let duration := Muhurat.durationMinutes muhuratTimes in
  let activities := ["Meditation"; "Prayer and mantras"; "Scripture reading"] in
  let activities :=
    if geb duration (Num 60) then
      (activities ++ ["Yoga practice"; "Pranayama (breathing exercises)"])%list
    else activities in
  let activities :=
    if geb duration (Num 90) then
      (activities ++ ["Extended meditation"; "Spiritual study";
                      "Ritual worship"])%list
    else activities in
  let activities :=
    if geb duration (Num 120) then
      (activities ++ ["Intensive sadhana"; "Group spiritual practices";
                      "Sacred chanting"])%list
    else activities in
  activities.

(** [_getNightPortionDescription(percentage)] *)
Definition _getNightPortionDescription (percentage : number) : string :=
  if gtb percentage (Num 15) then
    "Extended period - excellent for deep spiritual practices"
  else if gtb percentage (Num 10) then
    "Optimal duration - ideal for meditation and prayer"
  else if gtb percentage (Num 7) then
    "Standard period - suitable for daily spiritual routine"
  else
    "Brief period - focus on essential practices".

(** [_getSeasonalDescription(factor)] *)
Definition _getSeasonalDescription (factor : number) : string :=
  if gtb factor (Num 1.15) then
    "Peak spiritual season - maximum benefits from practices"
  else if gtb factor (Num 1.05) then
    "Favorable spiritual period - enhanced meditation effects"
  else if gtb factor (Num 0.95) then
    "Balanced spiritual energy - consistent practice recommended"
  else
    "Moderate spiritual influence - maintain regular practice".

Section WithMoment.
(** [moment(date).dayOfYear()] *)
Variable dayOfYear : Date -> number.
(** [moment(date).diff(moment('2024-01-11'), 'days')] *)
Variable daysSinceKnownNewMoon : Date -> number.

(** [_calculateSeasonalFactor(date)] *)
Definition _calculateSeasonalFactor (date : Date) : number :=
  let dayOfYear := dayOfYear date in
  if geb dayOfYear (Num 355) || leb dayOfYear (Num 45) then Num 1.2
  else if geb dayOfYear (Num 46) && leb dayOfYear (Num 135) then Num 1.1
  else if geb dayOfYear (Num 136) && leb dayOfYear (Num 225) then Num 0.9
  else Num 1.0.

Record MoonPhase : Type := mkMoonPhase {
  phase : string;
  illumination : number;
  spiritualSignificance : string
}.

(** [_calculateMoonPhase(date)] *)
Definition _calculateMoonPhase (date : Date) : MoonPhase :=
  let daysSinceNewMoon := rem (daysSinceKnownNewMoon date) (Num 29.53) in
  let illumination :=
    Math_abs (match mul (mul (div daysSinceNewMoon (Num 29.53)) (Num 2))
                        (Num PI) with
              | NaN => NaN
              | Num x => Num (cos x)
              end) in
  let '(phase, spiritualSignificance) :=
    if ltb daysSinceNewMoon (Num 1) || gtb daysSinceNewMoon (Num 28) then
      ("New Moon", "Highly auspicious for new beginnings and meditation")
    else if ltb daysSinceNewMoon (Num 7) then
      ("Waxing Crescent", "Good for setting intentions and spiritual growth")
    else if ltb daysSinceNewMoon (Num 9) then
      ("First Quarter", "Balanced energy, good for all spiritual practices")
    else if ltb daysSinceNewMoon (Num 14) then
      ("Waxing Gibbous", "Building energy, excellent for intensive practices")
    else if ltb daysSinceNewMoon (Num 16) then
      ("Full Moon", "Peak spiritual energy, ideal for advanced practices")
    else if ltb daysSinceNewMoon (Num 22) then
      ("Waning Gibbous", "Good for reflection and inner work")
    else if ltb daysSinceNewMoon (Num 24) then
      ("Last Quarter", "Time for release and letting go")
    else
      ("Waning Crescent", "Preparation for renewal, deep meditation") in
  {| phase := phase;
     illumination := illumination;
     spiritualSignificance := spiritualSignificance |}.

End WithMoment.

End MuhuratMetrics.

(* ================================================================== *)
(** * src/index.js: [calculate] of [BrahmaMuhuratCalculator] *)
(* ================================================================== *)

Module BrahmaMuhurat.
Import JSMath.

Section WithLibraries.
Variable lib : Libraries.
Variable precision : string.
Variable traditionType : string.
Variable refractionModel : string.
(** [moment.tz.names()] *)
Variable names : list string.

(** [getSupportedTimezones()] of src/utils/time.js *)
Definition getSupportedTimezones : list string := names.

(** [_validateCalculationParams(params)] *)
Definition _validateCalculationParams (params : Muhurat.Params)
  : completion unit :=
  let latitude := Muhurat.latitude params in
  let longitude := Muhurat.longitude params in
  let date := Muhurat.date params in
  let timezone := Muhurat.timezone params in
  if negb (String.eqb (typeof latitude) "number")
     || negb (String.eqb (typeof longitude) "number") then
    throw Error "Latitude and longitude are required and must be numbers"
  else if falsy date then
    throw Error "Date is required"
  else if falsy timezone || negb (String.eqb (typeof timezone) "string") then
    throw Error "Timezone is required and must be a string"
  else
    Geo.validateCoordinates latitude longitude ;;;
    try_catch (TimeUtil.parseDateInput lib date ;;; Normal tt)
              (fun error => throw Error ("Invalid date: " ++ message error)) ;;;
    match timezone with
    | VString tz =>
        if negb (includes getSupportedTimezones tz) then
          throw Error ("Unsupported timezone: " ++ tz)
        else Normal tt
    | _ =>
        throw Error ("Unsupported timezone: "
                     ++ ToString (NumberToString lib) timezone)
    end.

(** [calculate(params)]: validation and calculation sit in one [try]; the
    library metadata added to the result is not part of [Muhurat.Result]. *)
Definition calculate (params : Muhurat.Params) : completion Muhurat.Result :=
  try_catch
    (_validateCalculationParams params ;;;
     result <- Muhurat.calculate lib precision traditionType refractionModel
                                 params ;;
     Normal result)
    (fun error =>
       throw Error ("Brahma Muhurat calculation failed: " ++ message error)).

End WithLibraries.

End BrahmaMuhurat.

(* ================================================================== *)
(** * Theorems *)
(* ================================================================== *)

(** ** Comparisons of reals *)

(** Decides a comparison between two real literals inside a goal. *)
Ltac decide_R :=
  repeat match goal with
         | |- context [Rlt_dec ?a ?b] => destruct (Rlt_dec a b); try lra
         | |- context [Rle_dec ?a ?b] => destruct (Rle_dec a b); try lra
         end.

(** Splits on every comparison of the goal. *)
Ltac decide_R_all :=
  repeat match goal with
         | |- context [Rlt_dec ?a ?b] => destruct (Rlt_dec a b)
         | |- context [Rle_dec ?a ?b] => destruct (Rle_dec a b)
         end.

(** ** Whole numbers *)

Lemma Int_part_IZR (z : Z) : Int_part (IZR z) = z.
Proof. symmetry. apply Int_part_spec. lra. Qed.

Lemma truncate_IZR (z : Z) : truncate (IZR z) = z.
Proof.
  unfold truncate. destruct (Rle_dec 0 (IZR z)).
  - apply Int_part_IZR.
  - rewrite <- opp_IZR, Int_part_IZR. lia.
Qed.

Lemma truncate_exact (x : R) (z : Z) : x = IZR z -> truncate x = z.
Proof. intros ->. apply truncate_IZR. Qed.

(** ** Geo: coordinate and elevation checks *)

Section GeoFacts.
Import Geo.

(** When it returns: both arguments are numbers, neither is NaN, and both
    are in range. *)
Lemma validateCoordinates_returns (latitude longitude : value) :
  validateCoordinates latitude longitude = Normal tt <->
  exists lat lon,
    latitude = VNumber (Num lat) /\ longitude = VNumber (Num lon) /\
    -90 <= lat <= 90 /\ -180 <= lon <= 180.
Proof.
  split.
  - destruct latitude as [| | |[|lat]| | | |], longitude as [| | |[|lon]| | | |];
      cbn; try discriminate.
    + unfold ltb, gtb, ltb. decide_R_all; cbn; discriminate.
    + unfold ltb, gtb, ltb. decide_R_all; cbn; discriminate.
    + unfold ltb, gtb, ltb. decide_R_all; cbn; try discriminate.
      intros _. exists lat, lon. repeat split; lra.
  - intros (lat & lon & -> & -> & Hlat & Hlon).
    cbn. unfold ltb, gtb, ltb. decide_R. reflexivity.
Qed.

(** Whatever it throws was built with [new Error]. *)
Lemma validateCoordinates_throws_Error (latitude longitude : value) (e : exn) :
  validateCoordinates latitude longitude = Throw e -> exn_class e = Error.
Proof.
  unfold validateCoordinates, throw.
  destruct latitude as [| | |lat| | | |], longitude as [| | |lon| | | |];
    try (intros H; injection H as <-; reflexivity).
  destruct (ltb lat (Num (-90)) || gtb lat (Num 90));
    [intros H; injection H as <-; reflexivity|].
  destruct (ltb lon (Num (-180)) || gtb lon (Num 180));
    [intros H; injection H as <-; reflexivity|].
  destruct (isNaN lat || isNaN lon);
    [intros H; injection H as <-; reflexivity|discriminate].
Qed.

Lemma completion_cases {A : Type} (m : completion A) : returns m \/ throws m.
Proof. destruct m; [left|right]; eexists; reflexivity. Qed.

(** C4, as amended: [validateCoordinates] throws whenever an argument is not
    of type number or is NaN, or a numeric latitude is outside [-90, 90],
    or a numeric longitude is outside [-180, 180]; what it throws is
    always a plain [Error], never a [TypeError] or a [RangeError]. *)
Theorem validateCoordinates_rejects (latitude longitude : value) :
  typeof latitude <> "number" \/ typeof longitude <> "number" \/
  latitude = VNumber NaN \/ longitude = VNumber NaN \/
  (exists lat, latitude = VNumber (Num lat) /\ (lat < -90 \/ 90 < lat)) \/
  (exists lon, longitude = VNumber (Num lon) /\ (lon < -180 \/ 180 < lon)) ->
  exists msg, validateCoordinates latitude longitude = Throw (mkExn Error msg).
Proof.
  intros Hbad.
  destruct (completion_cases (validateCoordinates latitude longitude))
    as [[[] Hret]|[e He]].
  - exfalso.
    apply validateCoordinates_returns in Hret.
    destruct Hret as (lat & lon & -> & -> & Hlat & Hlon).
    destruct Hbad as [H|[H|[H|[H|[(x & H & Hx)|(x & H & Hx)]]]]];
      try (now apply H); try discriminate H;
      injection H as ->; lra.
  - pose proof (validateCoordinates_throws_Error _ _ _ He) as Hc.
    destruct e as [c msg]. cbn in Hc. subst c. eauto.
Qed.

Lemma validateCoordinates_rejects_witness :
  exists msg,
    validateCoordinates (VNumber NaN) (VNumber (Num 77.1025)) =
    Throw (mkExn Error msg).
Proof.
  apply (validateCoordinates_rejects (VNumber NaN) (VNumber (Num 77.1025))).
  right; right; left; reflexivity.
Defined.

(** C4, as stated, fails: a string for latitude is answered with an
    [Error] that is not a [TypeError], and latitude 91 with an [Error]
    that is not a [RangeError]. *)
Lemma validateCoordinates_error_classes :
  (exists e, validateCoordinates (VString "invalid") (VNumber (Num 77.1025))
             = Throw e /\ exn_class e <> TypeError) /\
  (exists e, validateCoordinates (VNumber (Num 91)) (VNumber (Num 77.1025))
             = Throw e /\ exn_class e <> RangeError).
Proof.
  split.
  - eexists; split; [reflexivity|cbn; discriminate].
  - eexists; split;
      [cbn; unfold ltb, gtb, ltb; decide_R; reflexivity|cbn; discriminate].
Qed.

Lemma validateElevation_returns (elevation : value) :
  validateElevation elevation = Normal tt <->
  exists e, elevation = VNumber (Num e) /\ -500 <= e <= 9000.
Proof.
  split.
  - destruct elevation as [| | |[|e]| | | |]; cbn; try discriminate.
    unfold ltb, gtb, ltb. decide_R_all; cbn; try discriminate.
    intros _. exists e. split; [reflexivity|lra].
  - intros (e & -> & He). cbn. unfold ltb, gtb, ltb. decide_R. reflexivity.
Qed.

Lemma not_returns_throws {A : Type} (m : completion A) :
  ~ returns m -> throws m.
Proof. destruct (completion_cases m); tauto. Qed.

(** C8: the boundary values 90, -90 (latitude) and 180, -180 (longitude)
    are accepted, 91, -91, 181 and -181 are rejected whatever the other
    coordinate; elevations -500 and 9000 are accepted, -501 and 9001
    rejected. *)
Theorem validation_boundaries :
  (forall lat lon, In lat [90; -90] -> In lon [180; -180] ->
     validateCoordinates (VNumber (Num lat)) (VNumber (Num lon)) = Normal tt) /\
  (forall lat other, In lat [91; -91] ->
     throws (validateCoordinates (VNumber (Num lat)) other)) /\
  (forall lon other, In lon [181; -181] ->
     throws (validateCoordinates other (VNumber (Num lon)))) /\
  (forall e, In e [-500; 9000] -> validateElevation (VNumber (Num e)) = Normal tt) /\
  (forall e, In e [-501; 9001] -> throws (validateElevation (VNumber (Num e)))).
Proof.
  repeat split.
  - intros lat lon Hlat Hlon. apply validateCoordinates_returns.
    exists lat, lon. cbn in Hlat, Hlon.
    repeat split; try reflexivity;
      destruct Hlat as [<-|[<-|[]]]; destruct Hlon as [<-|[<-|[]]]; lra.
  - intros lat other Hlat. apply not_returns_throws. intros [[] H].
    apply validateCoordinates_returns in H.
    destruct H as (x & y & Hx & _ & Hr & _). injection Hx as <-.
    cbn in Hlat. destruct Hlat as [<-|[<-|[]]]; lra.
  - intros lon other Hlon. apply not_returns_throws. intros [[] H].
    apply validateCoordinates_returns in H.
    destruct H as (x & y & _ & Hy & _ & Hr). injection Hy as <-.
    cbn in Hlon. destruct Hlon as [<-|[<-|[]]]; lra.
  - intros e He. apply validateElevation_returns. exists e.
    split; [reflexivity|]. cbn in He. destruct He as [<-|[<-|[]]]; lra.
  - intros e He. apply not_returns_throws. intros [[] H].
    apply validateElevation_returns in H. destruct H as (x & Hx & Hr).
    injection Hx as <-. cbn in He. destruct He as [<-|[<-|[]]]; lra.
Qed.

End GeoFacts.

(** ** Refraction *)

Section RefractionFacts.
Import Refraction.

Lemma validateInputs_ok (a p t h : R) :
  validateInputs a p t h = Normal tt <->
  -90 <= a <= 90 /\ 500 <= p <= 1100 /\ -50 <= t <= 50 /\ 0 <= h <= 1.
Proof.
  unfold validateInputs, ltb, gtb, ltb, throw.
  split.
  - repeat match goal with
           | |- context [Rlt_dec ?x ?y] => destruct (Rlt_dec x y)
           end; simpl; intros H; try discriminate H; lra.
  - intros H.
    repeat match goal with
           | |- context [Rlt_dec ?x ?y] => destruct (Rlt_dec x y); try lra
           end; reflexivity.
Qed.

(** At or above -2 degrees no method calls [calculateRefraction] back. *)
Lemma body_above_horizon model self self' a p t h :
  ~ a < -2 ->
  calculateRefraction_body model self a p t h =
  calculateRefraction_body model self' a p t h.
Proof.
  intros Ha.
  unfold calculateRefraction_body, _rigorousRefraction, _saemundssonRefraction,
    _bennettRefraction.
  destruct (Rlt_dec (a) (-2)); [contradiction|].
  reflexivity.
Qed.

(** The body only ever asks [self] for the refraction at the horizon. *)
Lemma body_ext model self self' a p t h :
  self 0 None None None = self' 0 None None None ->
  calculateRefraction_body model self a p t h =
  calculateRefraction_body model self' a p t h.
Proof.
  intros E.
  unfold calculateRefraction_body, _rigorousRefraction, _saemundssonRefraction,
    _bennettRefraction, _extrapolateRefraction.
  rewrite E. reflexivity.
Qed.

Lemma not_0_below : ~ 0 < -2.
Proof. lra. Qed.

Lemma horizon_returns model self :
  exists r, calculateRefraction_body model self 0 None None None = Some r.
Proof.
  unfold calculateRefraction_body, _rigorousRefraction,
    _saemundssonRefraction, _bennettRefraction.
  destruct (Rlt_dec 0 (-2)); [lra|].
  destruct (String.eqb model "rigorous"); [eauto|].
  destruct (String.eqb model "saemundsson"); eauto.
Qed.

Lemma calculateRefraction_fuel_returns model a p t h :
  exists r, calculateRefraction_fuel 2 model a p t h = Some r.
Proof.
  cbn [calculateRefraction_fuel].
  destruct (horizon_returns model (fun _ _ _ _ => None)) as [r Hr].
  unfold calculateRefraction_body at 1.
  unfold _rigorousRefraction, _saemundssonRefraction, _bennettRefraction,
    _extrapolateRefraction.
  rewrite Hr.
  destruct (Rlt_dec a (-2));
    destruct (String.eqb model "rigorous");
    try destruct (String.eqb model "saemundsson"); eauto.
Qed.

(** Termination: from depth two on, the unfolding returns, and always the
    same number. *)
Lemma calculateRefraction_fuel_enough n model a p t h :
  calculateRefraction_fuel (S (S n)) model a p t h =
  Some (calculateRefraction model a p t h).
Proof.
  assert (E : calculateRefraction_fuel (S (S n)) model a p t h =
              calculateRefraction_fuel 2 model a p t h).
  { cbn [calculateRefraction_fuel]. apply body_ext.
    apply body_above_horizon, not_0_below. }
  rewrite E. unfold calculateRefraction.
  destruct (calculateRefraction_fuel_returns model a p t h) as [r Hr].
  rewrite Hr. reflexivity.
Qed.

(** The method's own equations. *)
Lemma calculateRefraction_above model a p t h :
  ~ a < -2 ->
  Some (calculateRefraction model a p t h) =
  calculateRefraction_body model (fun _ _ _ _ => None) a p t h.
Proof.
  intros Ha. rewrite <- (calculateRefraction_fuel_enough 0).
  cbn [calculateRefraction_fuel]. now apply body_above_horizon.
Qed.

Lemma calculateRefraction_below model a p t h :
  a < -2 ->
  calculateRefraction model a p t h =
  let horizonRefraction := calculateRefraction model 0 None None None in
  horizonRefraction + a * (horizonRefraction / 34).
Proof.
  intros Ha.
  assert (E := calculateRefraction_fuel_enough 1 model a p t h).
  change (calculateRefraction_fuel 3 model a p t h)
    with (calculateRefraction_body model (calculateRefraction_fuel 2 model)
                                   a p t h) in E.
  unfold calculateRefraction_body, _rigorousRefraction, _saemundssonRefraction,
    _bennettRefraction, _extrapolateRefraction in E.
  rewrite (calculateRefraction_fuel_enough 0 model 0 None None None) in E.
  destruct (Rlt_dec a (-2)); [|contradiction].
  destruct (String.eqb model "rigorous");
    [|destruct (String.eqb model "saemundsson")];
    injection E as E; rewrite <- E; reflexivity.
Qed.

(** *** Signs of the tangent *)

Lemma tan_pos_deg (d : R) : 0 < d -> d < 90 -> 0 < tan (d * PI / 180).
Proof.
  intros H0 H90. pose proof PI_RGT_0 as HPI.
  apply tan_gt_0; nra.
Qed.

Lemma tan_neg_deg (d : R) : 90 < d -> d < 180 -> tan (d * PI / 180) < 0.
Proof.
  intros H90 H180. pose proof PI_RGT_0 as HPI.
  assert (Hs : 0 < sin (d * PI / 180)) by (apply sin_gt_0; nra).
  assert (Hc : cos (d * PI / 180) < 0) by (apply cos_lt_0; nra).
  unfold tan, Rdiv.
  assert (Hi : / cos (d * PI / 180) < 0) by now apply Rinv_lt_0_compat.
  nra.
Qed.

(** The angle fed to the tangent, in degrees, stays inside (0, 90) for
    every clamped altitude up to 89.89 degrees. *)
Lemma angle_in_first_quadrant (h a b : R) :
  0.01 <= h <= 89.89 -> 0 < a <= 10.3 -> 4.4 <= b <= 5.11 ->
  0 < h + a / (h + b) < 90.
Proof.
  intros Hh Ha Hb.
  assert (Hd : 0 < h + b) by lra.
  assert (Hq : 0 < a / (h + b)) by (apply Rdiv_lt_0_compat; lra).
  split; [lra|].
  assert (Hlt : a / (h + b) < 90 - h).
  { apply Rmult_lt_reg_r with (h + b); [exact Hd|].
    replace (a / (h + b) * (h + b)) with a by (field; lra).
    nra. }
  lra.
Qed.

Lemma atmosphere_factor_pos (p t : R) :
  500 <= p <= 1100 -> -50 <= t <= 50 ->
  0 < p / 1013.25 * (283.15 / (273.15 + t)).
Proof.
  intros Hp Ht.
  apply Rmult_lt_0_compat; apply Rdiv_lt_0_compat; lra.
Qed.

(** C3, as amended: for pressure in [500, 1100], temperature in [-50, 50]
    and any altitude from -2 up to 89.89 degrees, [calculateRefraction]
    returns a value that is not negative, whatever the model; under the
    rigorous model this holds for every altitude from -2 degrees up. *)
Theorem calculateRefraction_nonneg model a p t h :
  -2 <= a -> model = "rigorous" \/ a <= 89.89 ->
  500 <= p <= 1100 -> -50 <= t <= 50 -> 0 <= h <= 1 ->
  0 <= calculateRefraction model a (Some p) (Some t) (Some h).
Proof.
  intros Ha Hm Hp Ht Hh.
  assert (E := calculateRefraction_above model a (Some p) (Some t) (Some h)
                 ltac:(lra)).
  unfold calculateRefraction_body, _rigorousRefraction, _saemundssonRefraction,
    _bennettRefraction, default in E.
  destruct (Rlt_dec a (-2)) as [Hlt|_]; [lra|].
  destruct (String.eqb model "rigorous") eqn:Er.
  { injection E as E. rewrite E. apply Rmax_r. }
  destruct Hm as [Hm|Hm]; [subst model; discriminate Er|].
  assert (Hc : 0.01 <= Rmax a 0.01 <= 89.89).
  { split; [apply Rmax_r|apply Rmax_lub; lra]. }
  pose proof (atmosphere_factor_pos p t Hp Ht) as Hf.
  destruct (String.eqb model "saemundsson"); injection E as E; rewrite E.
  - pose proof (angle_in_first_quadrant (Rmax a 0.01) 10.3 5.11 Hc
                  ltac:(lra) ltac:(lra)) as [H1 H2].
    pose proof (tan_pos_deg _ H1 H2) as Htan.
    assert (0 < 1.02 / tan ((Rmax a 0.01 + 10.3 / (Rmax a 0.01 + 5.11)) * PI / 180))
      by (apply Rdiv_lt_0_compat; lra).
    rewrite Rmult_assoc. apply Rlt_le, Rmult_lt_0_compat; assumption.
  - pose proof (angle_in_first_quadrant (Rmax a 0.01) 7.31 4.4 Hc
                  ltac:(lra) ltac:(lra)) as [H1 H2].
    pose proof (tan_pos_deg _ H1 H2) as Htan.
    assert (0 < 1 / tan ((Rmax a 0.01 + 7.31 / (Rmax a 0.01 + 4.4)) * PI / 180))
      by (apply Rdiv_lt_0_compat; lra).
    rewrite Rmult_assoc. apply Rlt_le, Rmult_lt_0_compat; assumption.
Qed.

Lemma calculateRefraction_nonneg_witness :
  0 <= calculateRefraction "saemundsson" 45 (Some 1013.25) (Some 15) (Some 0.5).
Proof.
  apply (calculateRefraction_nonneg "saemundsson" 45 1013.25 15 0.5);
    try lra; right; lra.
Defined.

(** C3, as stated, fails: at the zenith (altitude 90, a valid altitude)
    and standard conditions, Bennett's formula as coded is negative. *)
Lemma calculateRefraction_negative_at_zenith :
  validateInputs 90 1013.25 15 0.5 = Normal tt /\
  -2 <= 90 /\
  calculateRefraction "bennett" 90 (Some 1013.25) (Some 15) (Some 0.5) < 0.
Proof.
  split; [apply validateInputs_ok; lra|]. split; [lra|].
  assert (E := calculateRefraction_above "bennett" 90 (Some 1013.25) (Some 15)
                 (Some 0.5) ltac:(lra)).
  unfold calculateRefraction_body, _bennettRefraction, default in E.
  cbn [String.eqb Ascii.eqb Bool.eqb] in E.
  destruct (Rlt_dec 90 (-2)) as [Hlt|_]; [lra|].
  injection E as E. rewrite E.
  rewrite (Rmax_left 90 0.01) by lra.
  assert (Htan : tan ((90 + 7.31 / (90 + 4.4)) * PI / 180) < 0).
  { apply tan_neg_deg.
    - assert (0 < 7.31 / (90 + 4.4)) by (apply Rdiv_lt_0_compat; lra). lra.
    - assert (7.31 / (90 + 4.4) < 1).
      { apply Rmult_lt_reg_r with (90 + 4.4); [lra|].
        replace (7.31 / (90 + 4.4) * (90 + 4.4)) with 7.31 by (field; lra).
        lra. }
      lra. }
  assert (Hinv : 1 / tan ((90 + 7.31 / (90 + 4.4)) * PI / 180) < 0).
  { unfold Rdiv. rewrite Rmult_1_l. now apply Rinv_lt_0_compat. }
  assert (Hf : 0 < 1013.25 / 1013.25 * (283.15 / (273.15 + 15)))
    by (apply atmosphere_factor_pos; lra).
  rewrite Rmult_assoc. nra.
Qed.

(** C9: strictly below -2 degrees the result does not depend on the
    pressure, temperature and humidity supplied (or omitted): the
    extrapolation starts from the horizon refraction under the default
    conditions. *)
Theorem calculateRefraction_below_ignores_atmosphere
        model a p t h p' t' h' :
  a < -2 ->
  calculateRefraction model a p t h = calculateRefraction model a p' t' h'.
Proof.
  intros Ha.
  rewrite (calculateRefraction_below model a p t h Ha).
  rewrite (calculateRefraction_below model a p' t' h' Ha).
  reflexivity.
Qed.

Lemma calculateRefraction_below_ignores_atmosphere_witness :
  -5 < -2 /\
  calculateRefraction "rigorous" (-5) (Some 900) (Some 30) (Some 0.9) =
  calculateRefraction "rigorous" (-5) (Some 1013.25) None (Some 0.1).
Proof.
  split; [lra|].
  apply (calculateRefraction_below_ignores_atmosphere
           "rigorous" (-5) (Some 900) (Some 30) (Some 0.9)
           (Some 1013.25) None (Some 0.1)).
  lra.
Defined.

(** Under Bennett's and Saemundsson's formulas the altitude is clamped to
    0.01 degrees, and the humidity is not read. *)
Lemma calculateRefraction_clamped model a p t h h' :
  model = "bennett" \/ model = "saemundsson" ->
  -2 <= a <= 0.01 ->
  calculateRefraction model a p t h = calculateRefraction model 0.01 p t h'.
Proof.
  intros Hm Ha.
  assert (E1 := calculateRefraction_above model a p t h ltac:(lra)).
  assert (E2 := calculateRefraction_above model 0.01 p t h' ltac:(lra)).
  unfold calculateRefraction_body, _saemundssonRefraction, _bennettRefraction
    in E1, E2.
  destruct (Rlt_dec a (-2)) as [Hlt|_]; [lra|].
  destruct (Rlt_dec 0.01 (-2)) as [Hlt|_]; [lra|].
  rewrite (Rmax_right a 0.01) in E1 by lra.
  rewrite (Rmax_left 0.01 0.01) in E2 by lra.
  destruct Hm as [-> | ->]; cbn [String.eqb Ascii.eqb Bool.eqb] in E1, E2;
    congruence.
Qed.

(** C10: under the bennett and saemundsson models [calculateRefraction] is
    constant on [-2, 0.01] for a given pressure and temperature, and
    [calculateSunriseRefraction] is the refraction at the clamped altitude
    0.01: any depression angle of that interval gives the same result. *)
Theorem calculateRefraction_constant_near_horizon model a1 a2 p t h1 h2 :
  model = "bennett" \/ model = "saemundsson" ->
  -2 <= a1 <= 0.01 -> -2 <= a2 <= 0.01 ->
  calculateRefraction model a1 p t h1 = calculateRefraction model a2 p t h2 /\
  calculateSunriseRefraction model p t h1 =
    calculateRefraction model 0.01 p t h1 /\
  calculateSunriseRefraction model p t h1 =
    calculateRefraction model a1 p t h1.
Proof.
  intros Hm H1 H2.
  assert (S : calculateSunriseRefraction model p t h1 =
              calculateRefraction model 0.01 p t h1).
  { unfold calculateSunriseRefraction.
    rewrite (calculateRefraction_clamped model (-0.833) _ _ _ h1 Hm)
      by lra.
    assert (E1 := calculateRefraction_above model 0.01
                    (Some (default 1013.25 p)) (Some (default 15 t)) h1
                    ltac:(lra)).
    assert (E2 := calculateRefraction_above model 0.01 p t h1 ltac:(lra)).
    unfold calculateRefraction_body in E1, E2. cbn [default] in E1.
    congruence. }
  split; [|split].
  - rewrite (calculateRefraction_clamped model a1 p t h1 h1 Hm H1).
    rewrite (calculateRefraction_clamped model a2 p t h2 h1 Hm H2).
    reflexivity.
  - exact S.
  - rewrite S. symmetry. now apply calculateRefraction_clamped.
Qed.

Lemma calculateRefraction_constant_near_horizon_witness :
  calculateRefraction "bennett" (-1) (Some 1000) (Some 20) (Some 0.2) =
    calculateRefraction "bennett" 0 (Some 1000) (Some 20) (Some 0.7) /\
  calculateSunriseRefraction "bennett" (Some 1000) (Some 20) (Some 0.2) =
    calculateRefraction "bennett" 0.01 (Some 1000) (Some 20) (Some 0.2) /\
  calculateSunriseRefraction "bennett" (Some 1000) (Some 20) (Some 0.2) =
    calculateRefraction "bennett" (-1) (Some 1000) (Some 20) (Some 0.2).
Proof.
  apply (calculateRefraction_constant_near_horizon
           "bennett" (-1) 0 (Some 1000) (Some 20) (Some 0.2) (Some 0.7));
    [left; reflexivity | lra | lra].
Defined.

End RefractionFacts.

(** ** Astronomical: sunrise at the three precisions *)

Section AstronomicalFacts.
Import Astronomical.

Lemma sqrt_100 : sqrt 100 = 10.
Proof.
  replace 100 with (10 * 10) by lra. apply sqrt_square. lra.
Qed.

(** An amount of [c / 60] minutes is an amount of [c] seconds. *)
Lemma add_minutes_as_seconds (d : Date) (c : R) :
  Moment.add d (Num (c / 60)) Moment.minutes =
  Moment.add d (Num c) Moment.seconds.
Proof.
  destruct d as [|t]; [reflexivity|]. cbn.
  do 2 f_equal. lra.
Qed.

(** C7, as amended: at the high tier the correction added to the SunCalc
    sunrise is [-1.76 * sqrt elevation / 60] minutes, that is
    [-1.76 * sqrt elevation] seconds, and it is applied only when the
    elevation is positive; the basic refraction is then subtracted. *)
Theorem high_precision_elevation_correction lib lat lon elev dateObj :
  let sunrise := SunCalc.sunrise (SunCalc_getTimes lib dateObj lat lon) in
  let refraction := Num (_calculateBasicRefraction lat) in
  (0 < elev ->
   _calculateElevationCorrection elev = -1.76 * sqrt elev / 60 /\
   _calculateHighPrecisionSunrise lib lat lon elev dateObj =
     Moment.subtract
       (Moment.add sunrise (Num (-1.76 * sqrt elev / 60)) Moment.minutes)
       refraction Moment.seconds /\
   _calculateHighPrecisionSunrise lib lat lon elev dateObj =
     Moment.subtract
       (Moment.add sunrise (Num (-1.76 * sqrt elev)) Moment.seconds)
       refraction Moment.seconds) /\
  (elev <= 0 ->
   _calculateHighPrecisionSunrise lib lat lon elev dateObj =
     Moment.subtract sunrise refraction Moment.seconds).
Proof.
  cbv zeta. unfold _calculateHighPrecisionSunrise, _calculateElevationCorrection.
  split; intros He; destruct (Rlt_dec 0 elev); try lra.
  - rewrite <- add_minutes_as_seconds. repeat split; reflexivity.
  - reflexivity.
Qed.

Lemma high_precision_elevation_correction_witness :
  _calculateElevationCorrection 100 = -1.76 * sqrt 100 / 60 /\
  _calculateHighPrecisionSunrise Example.lib 25.317644 83.005495 100
      (Instant Example.midnight) =
    Moment.subtract
      (Moment.add (Instant Example.sunrise_ms)
                  (Num (-1.76 * sqrt 100 / 60)) Moment.minutes)
      (Num (_calculateBasicRefraction 25.317644)) Moment.seconds /\
  _calculateHighPrecisionSunrise Example.lib 25.317644 83.005495 100
      (Instant Example.midnight) =
    Moment.subtract
      (Moment.add (Instant Example.sunrise_ms)
                  (Num (-1.76 * sqrt 100)) Moment.seconds)
      (Num (_calculateBasicRefraction 25.317644)) Moment.seconds.
Proof.
  apply (proj1 (high_precision_elevation_correction
                  Example.lib 25.317644 83.005495 100
                  (Instant Example.midnight))).
  lra.
Defined.

(** C7, as stated, fails: at 100 m the correction is 17.6 / 60 minutes,
    which moves the sunrise by 17.6 seconds, where the formula without
    the division would move it by 17.6 minutes. *)
Lemma elevation_correction_is_not_in_minutes :
  _calculateElevationCorrection 100 = - (17.6 / 60) /\
  _calculateElevationCorrection 100 <> -1.76 * sqrt 100 /\
  Moment.add (Instant Example.sunrise_ms)
             (Num (_calculateElevationCorrection 100)) Moment.minutes =
    Instant (Example.sunrise_ms - 17600) /\
  Moment.add (Instant Example.sunrise_ms)
             (Num (-1.76 * sqrt 100)) Moment.minutes =
    Instant (Example.sunrise_ms - 1056000).
Proof.
  unfold _calculateElevationCorrection. rewrite sqrt_100.
  split; [lra|]. split; [lra|].
  unfold Moment.add, Moment.milliseconds, Example.sunrise_ms.
  split; f_equal; apply truncate_exact; rewrite minus_IZR; lra.
Qed.

(** Each branch of [calculateSunrise] returns. *)
Lemma maximum_precision_returns lib lat lon elev dateObj p t :
  _calculateMaximumPrecisionSunrise lib lat lon elev dateObj p t =
  Normal
    match Astronomy_SearchRiseSet lib lat lon elev dateObj with
    | Normal (Some sunrise_date) =>
        Moment.subtract sunrise_date
          (Num (_calculateAtmosphericRefraction p t lat)) Moment.seconds
    | _ => _calculateHighPrecisionSunrise lib lat lon elev dateObj
    end.
Proof.
  unfold _calculateMaximumPrecisionSunrise, try_catch, bind, throw.
  destruct (Astronomy_SearchRiseSet lib lat lon elev dateObj) as [[d|]|e];
    reflexivity.
Qed.

Lemma calculateSunrise_returns lib precision lat lon elev date timezone p t :
  returns (Astronomical.calculateSunrise lib precision lat lon elev
                                         date timezone p t).
Proof.
  unfold calculateSunrise.
  destruct (String.eqb precision "maximum").
  - rewrite maximum_precision_returns. eexists; reflexivity.
  - destruct (String.eqb precision "high"); eexists; reflexivity.
Qed.

(** C5: when the search of the maximum-precision engine throws, or finds
    no rise at all, [calculateSunrise] returns what the high-precision
    strategy returns; and at every precision the call returns rather than
    throws. *)
Theorem calculateSunrise_falls_back lib lat lon elev date timezone p t :
  let dateObj := moment_tz lib date timezone in
  (throws (Astronomy_SearchRiseSet lib lat lon elev dateObj) \/
   Astronomy_SearchRiseSet lib lat lon elev dateObj = Normal None ->
   calculateSunrise lib "maximum" lat lon elev date timezone p t =
     Normal (_calculateHighPrecisionSunrise lib lat lon elev dateObj)) /\
  (forall precision,
     returns (calculateSunrise lib precision lat lon elev date timezone p t)).
Proof.
  cbv zeta. split.
  - intros H. unfold calculateSunrise. cbn [String.eqb Ascii.eqb Bool.eqb].
    rewrite maximum_precision_returns.
    destruct H as [[e ->]| ->]; reflexivity.
  - intros precision. apply calculateSunrise_returns.
Qed.

Lemma calculateSunrise_falls_back_witness :
  calculateSunrise Example.lib "maximum" 70 25 0
      (VString "2024-02-18") (VString "Asia/Kolkata") None None =
    Normal (_calculateHighPrecisionSunrise Example.lib 70 25 0
              (Instant Example.midnight)).
Proof.
  apply (proj1 (calculateSunrise_falls_back Example.lib 70 25 0
                  (VString "2024-02-18") (VString "Asia/Kolkata") None None)).
  left. eexists. reflexivity.
Defined.

End AstronomicalFacts.

(** ** Muhurat: the window before sunrise *)

Section MuhuratFacts.
Import Muhurat.

Lemma subtract_whole_minutes (t n : Z) :
  Moment.subtract (Instant t) (Num (IZR n)) Moment.minutes =
  Instant (t - n * 60000).
Proof.
  cbn. f_equal. apply truncate_exact.
  rewrite minus_IZR, mult_IZR. reflexivity.
Qed.

(** The day-length object has no property [totalMinutes]. *)
Lemma dayLength_properties lib lat lon date timezone :
  let dayLength := _calculateDayLength lib lat lon date timezone in
  let times := Astronomical.getTwilightTimes lib lat lon date timezone in
  let minutes := Moment.diff (Astronomical.sunset times)
                             (Astronomical.sunrise times) Moment.minutes in
  get dayLength "totalMinutes" = VUndefined /\
  get dayLength "dayLength" = VNumber minutes /\
  get dayLength "nightLength" = VNumber (sub (Num 1440) minutes).
Proof. repeat split. Qed.

(** The three fixed traditions, and any name that is not a tradition:
    the window ends at the sunrise and starts 96 minutes before it, 120
    under the extended tradition. *)
Lemma fixed_tradition_window lib tradition t lat lon date timezone :
  String.eqb tradition "dynamic" = false ->
  let window := _calculateMuhuratTimes lib tradition (Instant t) lat lon
                                       date timezone in
  let minutes := if String.eqb tradition "extended" then 120%Z else 96%Z in
  durationMinutes window = Num (IZR minutes) /\
  end_ window = Instant t /\
  start window = Instant (t - minutes * 60000) /\
  date_lt (start window) (end_ window).
Proof.
  intros Hd. cbv zeta. unfold _calculateMuhuratTimes. rewrite Hd.
  destruct (String.eqb tradition "extended");
    [|destruct (String.eqb tradition "smarta")];
    cbn [start end_ durationMinutes];
    rewrite subtract_whole_minutes; repeat split; cbn; lia.
Qed.

(** C2 on the code: under the dynamic tradition the duration is read from
    a property the day-length object does not have, so it is NaN, not the
    fifteenth of the night length (nor of the day length). *)
Theorem dynamic_duration_is_NaN lib sunrise lat lon date timezone :
  let dayLength := _calculateDayLength lib lat lon date timezone in
  get dayLength "totalMinutes" = VUndefined /\
  (exists night, get dayLength "nightLength" = VNumber night) /\
  durationMinutes
    (_calculateMuhuratTimes lib "dynamic" sunrise lat lon date timezone) = NaN.
Proof.
  cbv zeta. split; [reflexivity|]. split; [eexists; reflexivity|].
  reflexivity.
Qed.

(** On the day of the example the night lasts 760 minutes, a fifteenth of
    which rounds to 51 minutes; the dynamic duration is NaN all the same. *)
Lemma dynamic_duration_example :
  get (_calculateDayLength Example.lib 25.317644 83.005495
         (VString "2024-02-18") (VString "Asia/Kolkata")) "nightLength" =
    VNumber (Num 760) /\
  Math_round (div (Num 760) (Num 15)) = Num 51 /\
  durationMinutes
    (_calculateMuhuratTimes Example.lib "dynamic" (Instant Example.sunrise_ms)
       25.317644 83.005495 (VString "2024-02-18") (VString "Asia/Kolkata")) =
    NaN.
Proof.
  split; [|split; [|reflexivity]].
  - cbn. unfold Moment.milliseconds.
    rewrite (truncate_exact _ 680) by (unfold Example.sunset_ms, Example.sunrise_ms; cbn; lra).
    do 2 f_equal. lra.
  - cbn. do 2 f_equal. symmetry. apply Int_part_spec. lra.
Qed.

Lemma bind_Normal_inv {A B : Type} (m : completion A) (k : A -> completion B)
      (b : B) :
  bind m k = Normal b -> exists a, m = Normal a /\ k a = Normal b.
Proof. destruct m; cbn; [eauto|discriminate]. Qed.

(** What a returned result is made of. *)
Lemma calculate_returns_inv lib precision tradition model params r :
  calculate lib precision tradition model params = Normal r ->
  _validateInputs lib params = Normal tt /\
  exists sunrise,
    _calculatePreciseSunrise lib precision model
      (real_of (latitude params)) (real_of (longitude params))
      (default 0 (elevation params)) (date params) (timezone params)
      (default 1013.25 (pressure params)) (default 15 (temperature params))
      (default 0.5 (humidity params)) = Normal sunrise /\
    let window := _calculateMuhuratTimes lib tradition sunrise
                    (real_of (latitude params)) (real_of (longitude params))
                    (date params) (timezone params) in
    sunrise_time r = sunrise /\
    brahmaMuhurat_start_time r = start window /\
    brahmaMuhurat_end_time r = end_ window /\
    brahmaMuhurat_duration_minutes r = durationMinutes window.
Proof.
  unfold calculate. intros H.
  apply bind_Normal_inv in H. destruct H as ([] & Hv & H).
  apply bind_Normal_inv in H. destruct H as (sunrise & Hs & H).
  apply bind_Normal_inv in H. destruct H as (parsed & Hp & H).
  injection H as <-. split; [exact Hv|].
  exists sunrise. split; [exact Hs|]. cbn. repeat split.
Qed.

(** The window of every tradition ends at the sunrise. *)
Lemma window_ends_at_sunrise lib tradition sunrise lat lon date timezone :
  end_ (_calculateMuhuratTimes lib tradition sunrise lat lon date timezone)
  = sunrise.
Proof.
  unfold _calculateMuhuratTimes.
  destruct (String.eqb tradition "extended");
    [|destruct (String.eqb tradition "smarta");
      [|destruct (String.eqb tradition "dynamic")]]; reflexivity.
Qed.

Lemma preciseSunrise_returns lib precision model lat lon elev date timezone
      p t h :
  returns (_calculatePreciseSunrise lib precision model lat lon elev
                                    date timezone p t h).
Proof.
  unfold _calculatePreciseSunrise.
  destruct (calculateSunrise_returns lib precision lat lon elev date timezone
                                     (Some p) (Some t)) as [d ->].
  cbn. destruct (String.eqb precision "maximum"); eexists; reflexivity.
Qed.

(** A date that passed the validation parses, when it is a [Date], a
    moment or a string. *)
Lemma parseDateInput_returns lib (date : value) :
  Moment.isValid (moment_parse lib date) = true ->
  (exists d, date = VDate d) \/ (exists d, date = VMoment d) \/
  (exists s, date = VString s) ->
  returns (TimeUtil.parseDateInput lib date).
Proof.
  intros Hvalid [[d ->]|[[d ->]|[s ->]]]; unfold TimeUtil.parseDateInput.
  - eexists; reflexivity.
  - eexists; reflexivity.
  - destruct (TimeUtil.first_valid lib s TimeUtil.formats); [eexists; reflexivity|].
    rewrite Hvalid. eexists; reflexivity.
Qed.

Lemma validateInputs_date lib params :
  _validateInputs lib params = Normal tt ->
  Moment.isValid (moment_parse lib (date params)) = true.
Proof.
  unfold _validateInputs. intros H.
  apply bind_Normal_inv in H. destruct H as ([] & _ & H).
  apply bind_Normal_inv in H. destruct H as ([] & _ & H).
  destruct (Moment.isValid (moment_parse lib (date params)));
    [reflexivity|discriminate H].
Qed.

(** [calculate] returns on every input that passes the validation and
    whose date is a [Date], a moment or a string. *)
Lemma calculate_returns lib precision tradition model params :
  _validateInputs lib params = Normal tt ->
  (exists d, date params = VDate d) \/ (exists d, date params = VMoment d) \/
  (exists s, date params = VString s) ->
  returns (calculate lib precision tradition model params).
Proof.
  intros Hv Hd. unfold calculate. rewrite Hv. cbn [bind].
  destruct (preciseSunrise_returns lib precision model
              (real_of (latitude params)) (real_of (longitude params))
              (default 0 (elevation params)) (date params) (timezone params)
              (default 1013.25 (pressure params))
              (default 15 (temperature params))
              (default 0.5 (humidity params))) as [sunrise ->].
  cbn [bind].
  destruct (parseDateInput_returns lib (date params)
              (validateInputs_date lib params Hv) Hd) as [parsed ->].
  cbn [bind]. eexists; reflexivity.
Qed.

(** C1, as amended: on every input that passes the validation (the date
    being a [Date], a moment or a string), and for every tradition other
    than dynamic, [calculate] returns a window that ends at the sunrise
    resolved by [_calculatePreciseSunrise] and lasts 96 minutes, 120 under
    the extended tradition; whenever that sunrise is a valid instant the
    window starts exactly that many minutes before it, hence before its
    end. *)
Theorem calculate_fixed_tradition lib precision tradition model params :
  String.eqb tradition "dynamic" = false ->
  _validateInputs lib params = Normal tt ->
  (exists d, date params = VDate d) \/ (exists d, date params = VMoment d) \/
  (exists s, date params = VString s) ->
  let minutes := if String.eqb tradition "extended" then 120%Z else 96%Z in
  exists r,
    calculate lib precision tradition model params = Normal r /\
    _calculatePreciseSunrise lib precision model
      (real_of (latitude params)) (real_of (longitude params))
      (default 0 (elevation params)) (date params) (timezone params)
      (default 1013.25 (pressure params)) (default 15 (temperature params))
      (default 0.5 (humidity params)) = Normal (sunrise_time r) /\
    brahmaMuhurat_end_time r = sunrise_time r /\
    brahmaMuhurat_duration_minutes r = Num (IZR minutes) /\
    forall t, sunrise_time r = Instant t ->
      brahmaMuhurat_start_time r = Instant (t - minutes * 60000) /\
      date_lt (brahmaMuhurat_start_time r) (brahmaMuhurat_end_time r).
Proof.
  intros Hdyn Hv Hd. cbv zeta.
  destruct (calculate_returns lib precision tradition model params Hv Hd)
    as [r Hr].
  exists r. split; [exact Hr|].
  apply calculate_returns_inv in Hr.
  destruct Hr as (_ & sunrise & Hs & Hsun & Hstart & Hend & Hdur).
  rewrite Hstart, Hend, Hdur, Hsun.
  split; [exact Hs|].
  split; [apply window_ends_at_sunrise|].
  split.
  - unfold _calculateMuhuratTimes. rewrite Hdyn.
    destruct (String.eqb tradition "extended");
      [|destruct (String.eqb tradition "smarta")]; reflexivity.
  - intros t ->.
    pose proof (fixed_tradition_window lib tradition t
                  (real_of (latitude params)) (real_of (longitude params))
                  (date params) (timezone params) Hdyn) as H.
    cbv zeta in H. tauto.
Qed.

Lemma example_passes_validation :
  _validateInputs Example.lib Example.varanasi = Normal tt.
Proof.
  unfold _validateInputs.
  assert (Hv : Geo.validateCoordinates (latitude Example.varanasi)
                                       (longitude Example.varanasi) = Normal tt).
  { apply validateCoordinates_returns. do 2 eexists.
    repeat split; try reflexivity; lra. }
  rewrite Hv. reflexivity.
Qed.

(** The sunrise of the example is a valid instant. *)
Lemma example_sunrise_is_valid tradition r :
  calculate Example.lib "high" tradition "bennett" Example.varanasi = Normal r ->
  exists t, sunrise_time r = Instant t.
Proof.
  intros Hr.
  pose proof (calculate_returns_inv _ _ _ _ _ _ Hr)
    as (_ & sunrise & Hs & Hsun & _).
  rewrite Hsun. cbn in Hs.
  unfold Astronomical._calculateHighPrecisionSunrise in Hs.
  cbn in Hs. destruct (Rlt_dec 0 80); injection Hs as <-; eexists; reflexivity.
Qed.

Lemma calculate_fixed_tradition_witness :
  exists r t,
    calculate Example.lib "high" "standard" "bennett" Example.varanasi
      = Normal r /\
    sunrise_time r = Instant t /\
    brahmaMuhurat_end_time r = Instant t /\
    brahmaMuhurat_duration_minutes r = Num 96 /\
    brahmaMuhurat_start_time r = Instant (t - 96 * 60000) /\
    date_lt (brahmaMuhurat_start_time r) (brahmaMuhurat_end_time r).
Proof.
  destruct (calculate_fixed_tradition Example.lib "high" "standard" "bennett"
              Example.varanasi eq_refl example_passes_validation
              (or_intror (or_intror (ex_intro _ "2024-02-18" eq_refl))))
    as (r & Hr & _ & Hend & Hdur & Hwindow).
  destruct (example_sunrise_is_valid "standard" r Hr) as [t Ht].
  destruct (Hwindow t Ht) as [Hstart Hlt].
  exists r, t. rewrite Hend in *. rewrite Ht in *.
  repeat split; assumption.
Defined.

(** Under the midnight sun the input passes the validation and
    [calculate] returns, but there is no sunrise instant: the start of the
    window is an invalid date like its end, and so is not before it. *)
Lemma calculate_under_midnight_sun :
  _validateInputs Example.lib Example.arctic = Normal tt /\
  exists r,
    calculate Example.lib "high" "standard" "bennett" Example.arctic
      = Normal r /\
    sunrise_time r = InvalidDate /\
    brahmaMuhurat_start_time r = InvalidDate /\
    brahmaMuhurat_end_time r = InvalidDate /\
    ~ date_lt (brahmaMuhurat_start_time r) (brahmaMuhurat_end_time r).
Proof.
  assert (Hv : _validateInputs Example.lib Example.arctic = Normal tt).
  { unfold _validateInputs.
    assert (Hc : Geo.validateCoordinates (latitude Example.arctic)
                                         (longitude Example.arctic) = Normal tt).
    { apply validateCoordinates_returns. do 2 eexists.
      repeat split; try reflexivity; lra. }
    rewrite Hc. reflexivity. }
  split; [exact Hv|].
  unfold calculate. rewrite Hv. cbn.
  eexists. split; [reflexivity|]. cbn.
  assert (E : Astronomical._calculateHighPrecisionSunrise Example.lib 70 25 0
                (Instant Example.midsummer_midnight) = InvalidDate).
  { unfold Astronomical._calculateHighPrecisionSunrise. cbn.
    destruct (Rlt_dec 0 0); reflexivity. }
  rewrite E. cbn. tauto.
Qed.

(** Under the dynamic tradition a returned window still
    ends at the sunrise, but its duration is NaN and its start is not
    before its end. *)
Lemma calculate_dynamic_window lib precision model params r :
  calculate lib precision "dynamic" model params = Normal r ->
  brahmaMuhurat_end_time r = sunrise_time r /\
  brahmaMuhurat_duration_minutes r = NaN /\
  ~ date_lt (brahmaMuhurat_start_time r) (brahmaMuhurat_end_time r).
Proof.
  intros Hr. apply calculate_returns_inv in Hr.
  destruct Hr as (_ & sunrise & _ & Hsun & Hstart & Hend & Hdur).
  rewrite Hstart, Hend, Hdur, Hsun.
  split; [apply window_ends_at_sunrise|]. split; [reflexivity|].
  unfold _calculateMuhuratTimes. cbn [String.eqb Ascii.eqb Bool.eqb].
  cbn [start end_].
  destruct sunrise as [|t]; cbn; [tauto|lia].
Qed.

Lemma calculate_dynamic_window_example :
  exists r,
    calculate Example.lib "high" "dynamic" "bennett" Example.varanasi = Normal r /\
    brahmaMuhurat_end_time r = sunrise_time r /\
    brahmaMuhurat_duration_minutes r = NaN /\
    ~ date_lt (brahmaMuhurat_start_time r) (brahmaMuhurat_end_time r).
Proof.
  destruct (calculate_returns Example.lib "high" "dynamic" "bennett"
              Example.varanasi example_passes_validation)
    as [r Hr]; [right; right; eexists; reflexivity|].
  exists r. split; [exact Hr|].
  exact (calculate_dynamic_window Example.lib "high" "bennett"
                                  Example.varanasi r Hr).
Qed.

(** C1, as stated, fails on inputs that pass the validation: under the
    midnight sun there is no sunrise instant and the start of the window,
    invalid like its end, is not before it; and under the dynamic
    tradition the duration is NaN and the start is not before the end
    either. *)
Lemma calculate_window_failures :
  (_validateInputs Example.lib Example.arctic = Normal tt /\
   exists r,
     calculate Example.lib "high" "standard" "bennett" Example.arctic
       = Normal r /\
     sunrise_time r = InvalidDate /\
     ~ date_lt (brahmaMuhurat_start_time r) (brahmaMuhurat_end_time r)) /\
  (_validateInputs Example.lib Example.varanasi = Normal tt /\
   exists r,
     calculate Example.lib "high" "dynamic" "bennett" Example.varanasi
       = Normal r /\
     brahmaMuhurat_duration_minutes r = NaN /\
     ~ date_lt (brahmaMuhurat_start_time r) (brahmaMuhurat_end_time r)).
Proof.
  split.
  - destruct calculate_under_midnight_sun as (Hv & r & Hr & Hs & _ & _ & Hlt).
    split; [exact Hv|]. exists r. repeat split; assumption.
  - split; [exact example_passes_validation|].
    destruct calculate_dynamic_window_example as (r & Hr & _ & Hd & Hlt).
    exists r. repeat split; assumption.
Qed.

(** ** Batches *)

(** C6: the result has the length and the order of the dates; the element
    at each position is the full result for the date at that position, or
    that date with the message of what [calculate] threw for it, and
    depends on no other date; the call itself returns. *)
Theorem calculateBatch_isolates_failures lib precision tradition model
        params (dates : list value) :
  let batch := calculateBatch lib precision tradition model params in
  let item := fun date : value =>
    match calculate lib precision tradition model (with_date params date) with
    | Normal result => ItemResult result
    | Throw error => ItemError date (message error)
    end in
  List.length (batch dates) = List.length dates /\
  (forall i, nth_error (batch dates) i = option_map item (nth_error dates i)) /\
  (forall before date after,
     batch (before ++ date :: after)%list =
     (batch before ++ item date :: batch after)%list) /\
  Index.calculateBatch lib precision tradition model params (Index.AnArray dates)
  = Normal (batch dates).
Proof.
  cbv zeta.
  set (item := fun date : value =>
    match calculate lib precision tradition model (with_date params date) with
    | Normal result => ItemResult result
    | Throw error => ItemError date (message error)
    end).
  assert (E : forall l,
             calculateBatch lib precision tradition model params l = map item l).
  { intros l. unfold calculateBatch. apply map_ext. intros d.
    unfold item, try_else, bind.
    destruct (calculate lib precision tradition model (with_date params d));
      reflexivity. }
  repeat split.
  - rewrite E. apply length_map.
  - intros i. rewrite E. apply nth_error_map.
  - intros before date after. rewrite !E, map_app. reflexivity.
Qed.

End MuhuratFacts.

(** ** parseTime *)

Section ParseTimeFacts.
Import Ascii JS TimeParse.

Lemma split_nonempty sep s : split sep s <> [].
Proof.
  destruct s as [|c s]; cbn; [discriminate|].
  destruct (Ascii.eqb c sep); [discriminate|].
  destruct (split sep s); discriminate.
Qed.

Lemma split_length sep s :
  List.length (split sep s) = S (occurrences sep s).
Proof.
  induction s as [|c s IH]; [reflexivity|].
  cbn. destruct (Ascii.eqb c sep).
  - cbn. now rewrite IH.
  - destruct (split sep s) eqn:E; [now destruct (split_nonempty sep s)|].
    cbn in *. exact IH.
Qed.

(** A piece without the separator, then the separator, then the rest. *)
Lemma split_piece sep piece rest :
  occurrences sep piece = O ->
  split sep (piece ++ String sep rest) = piece :: split sep rest.
Proof.
  induction piece as [|c piece IH]; cbn.
  - intros _. now rewrite Ascii.eqb_refl.
  - destruct (Ascii.eqb c sep); [discriminate|].
    intros H. rewrite (IH H). reflexivity.
Qed.

Lemma split_last sep piece :
  occurrences sep piece = O -> split sep piece = [piece].
Proof.
  induction piece as [|c piece IH]; cbn; [reflexivity|].
  destruct (Ascii.eqb c sep); [discriminate|].
  intros H. rewrite (IH H). reflexivity.
Qed.

Lemma range_check_passes s (high : Z) :
  ltb (parseInt s) (Num 0) || gtb (parseInt s) (Num (IZR high)) = false <->
  passes (parseInt s) high.
Proof.
  unfold passes, parseInt. destruct (parseInt_integer s) as [z|]; cbn.
  - unfold gtb, ltb.
    destruct (Rlt_dec (IZR z) 0) as [H1|H1];
      destruct (Rlt_dec (IZR high) (IZR z)) as [H2|H2]; cbn; split;
      try discriminate; try reflexivity.
    + intros [H|(z' & H & Hz)]; [discriminate|]. injection H as H.
      apply eq_IZR in H. subst z'. apply lt_IZR in H1. lia.
    + intros [H|(z' & H & Hz)]; [discriminate|]. injection H as H.
      apply eq_IZR in H. subst z'. apply lt_IZR in H1. lia.
    + intros [H|(z' & H & Hz)]; [discriminate|]. injection H as H.
      apply eq_IZR in H. subst z'. apply lt_IZR in H2. lia.
    + intros _. right. exists z. split; [reflexivity|].
      split.
      * apply le_IZR. lra.
      * apply le_IZR. lra.
  - split; [intros _; now left|reflexivity].
Qed.

(** The steps of [parseTime] once the string is known to have two or
    three pieces. *)
Lemma parseTime_pieces s :
  (occurrences ":" s = 1 \/ occurrences ":" s = 2)%nat ->
  let parts := split ":" s in
  let h := parseInt (nth 0 parts "") in
  let m := parseInt (nth 1 parts "") in
  let sec := if (occurrences ":" s =? 2)%nat
             then parseInt (nth 2 parts "") else Num 0 in
  parseTime s =
    if ltb h (Num 0) || gtb h (Num 23) then
      throw Error "Hours must be between 0 and 23"
    else if ltb m (Num 0) || gtb m (Num 59) then
      throw Error "Minutes must be between 0 and 59"
    else if ltb sec (Num 0) || gtb sec (Num 59) then
      throw Error "Seconds must be between 0 and 59"
    else Normal {| hours := h; minutes := m; seconds := sec |}.
Proof.
  intros Hc. cbv zeta. unfold parseTime. rewrite split_length.
  destruct Hc as [-> | ->]; reflexivity.
Qed.

Lemma format_error_iff s :
  parseTime s = throw Error "Invalid time format. Use HH:mm or HH:mm:ss" <->
  (occurrences ":" s <> 1 /\ occurrences ":" s <> 2)%nat.
Proof.
  split.
  - intros H. split; intros Hc;
      rewrite (parseTime_pieces s) in H by (rewrite Hc; auto);
      cbv zeta in H;
      repeat match type of H with
             | context [if ?b then _ else _] => destruct b
             end; discriminate H.
  - intros [H1 H2]. unfold parseTime. rewrite split_length.
    destruct (occurrences ":" s) as [|[|[|n]]]; try reflexivity; congruence.
Qed.

(** X1: [parseTime] answers with the format error exactly when the string
    has no colon or more than two. *)
Theorem parseTime_format_error s :
  parseTime s = throw Error "Invalid time format. Use HH:mm or HH:mm:ss" <->
  (occurrences ":" s <> 1 /\ occurrences ":" s <> 2)%nat.
Proof. exact (format_error_iff s). Qed.

Lemma passes_seconds_zero : passes (Num 0) 59.
Proof. right. exists 0%Z. split; [reflexivity|lia]. Qed.

(** X2: whatever [parseTime] returns, each field is NaN or an integer of
    its range, and the seconds are 0 when the string has one colon. *)
Theorem parseTime_result s r :
  parseTime s = Normal r ->
  passes (hours r) 23 /\ passes (minutes r) 59 /\ passes (seconds r) 59 /\
  (occurrences ":" s = 1%nat -> seconds r = Num 0).
Proof.
  intros H.
  assert (Hc : (occurrences ":" s = 1 \/ occurrences ":" s = 2)%nat).
  { destruct (Nat.eq_dec (occurrences ":" s) 1) as [|n1]; [now left|].
    destruct (Nat.eq_dec (occurrences ":" s) 2) as [|n2]; [now right|].
    rewrite (proj2 (format_error_iff s) (conj n1 n2)) in H.
    discriminate H. }
  rewrite (parseTime_pieces s Hc) in H. cbv zeta in H.
  set (parts := split ":" s) in *.
  destruct (ltb (parseInt (nth 0 parts "")) (Num 0)
            || gtb (parseInt (nth 0 parts "")) (Num 23)) eqn:Eh;
    [discriminate H|].
  destruct (ltb (parseInt (nth 1 parts "")) (Num 0)
            || gtb (parseInt (nth 1 parts "")) (Num 59)) eqn:Em;
    [discriminate H|].
  apply (range_check_passes _ 23) in Eh.
  apply (range_check_passes _ 59) in Em.
  destruct Hc as [Hc|Hc]; rewrite Hc in H; cbn [Nat.eqb] in H.
  - assert (E0 : ltb (Num 0) (Num 0) || gtb (Num 0) (Num 59) = false).
    { unfold gtb, ltb. decide_R; reflexivity. }
    rewrite E0 in H. injection H as <-. cbn.
    repeat split; auto using passes_seconds_zero.
  - revert H.
    destruct (ltb (parseInt (nth 2 parts "")) (Num 0)
              || gtb (parseInt (nth 2 parts "")) (Num 59)) eqn:Es;
      intros H; [discriminate H|].
    apply (range_check_passes _ 59) in Es.
    injection H as <-. cbn. repeat split; auto.
    intros H1. rewrite Hc in H1. discriminate H1.
Qed.



Lemma digit_cases (q : Z) :
  (0 <= q <= 9)%Z ->
  q = 0%Z \/ q = 1%Z \/ q = 2%Z \/ q = 3%Z \/ q = 4%Z \/ q = 5%Z \/
  q = 6%Z \/ q = 7%Z \/ q = 8%Z \/ q = 9%Z.
Proof. lia. Qed.

Lemma two_digits_parse (n : Z) :
  (0 <= n <= 99)%Z ->
  occurrences ":" (two_digits n) = O /\ parseInt (two_digits n) = Num (IZR n).
Proof.
  intros Hn.
  assert (Hq : (0 <= n / 10 <= 9)%Z) by (Z.div_mod_to_equations; lia).
  assert (Hr : (0 <= n mod 10 <= 9)%Z) by (Z.div_mod_to_equations; lia).
  assert (E : n = (10 * (n / 10) + n mod 10)%Z)
    by (Z.div_mod_to_equations; lia).
  unfold two_digits, parseInt.
  remember (n / 10)%Z as q. remember (n mod 10)%Z as r.
  clear Heqq Heqr. subst n.
  destruct (digit_cases _ Hq) as [->|[->|[->|[->|[->|[->|[->|[->|[->| ->]]]]]]]]];
    destruct (digit_cases _ Hr) as [->|[->|[->|[->|[->|[->|[->|[->|[->| ->]]]]]]]]];
    split; reflexivity.
Qed.

Lemma parseTime_two_digits (h m s : Z) :
  (0 <= h <= 23)%Z -> (0 <= m <= 59)%Z -> (0 <= s <= 59)%Z ->
  parseTime (two_digits h ++ String ":" (two_digits m ++ String ":" (two_digits s)))
    = Normal {| hours := Num (IZR h); minutes := Num (IZR m);
                seconds := Num (IZR s) |} /\
  parseTime (two_digits h ++ String ":" (two_digits m))
    = Normal {| hours := Num (IZR h); minutes := Num (IZR m);
                seconds := Num 0 |}.
Proof.
  intros Hh Hm Hs.
  destruct (two_digits_parse h ltac:(lia)) as [Oh Ph].
  destruct (two_digits_parse m ltac:(lia)) as [Om Pm].
  destruct (two_digits_parse s ltac:(lia)) as [Os Ps].
  assert (Rh : ltb (Num (IZR h)) (Num 0) || gtb (Num (IZR h)) (Num 23) = false).
  { unfold gtb, ltb.
    destruct (Rlt_dec (IZR h) 0) as [H|_]; [apply lt_IZR in H; lia|].
    destruct (Rlt_dec 23 (IZR h)) as [H|_]; [apply lt_IZR in H; lia|].
    reflexivity. }
  assert (Rm : forall x, (0 <= x <= 59)%Z ->
               ltb (Num (IZR x)) (Num 0) || gtb (Num (IZR x)) (Num 59) = false).
  { intros x Hx. unfold gtb, ltb.
    destruct (Rlt_dec (IZR x) 0) as [H|_]; [apply lt_IZR in H; lia|].
    destruct (Rlt_dec 59 (IZR x)) as [H|_]; [apply lt_IZR in H; lia|].
    reflexivity. }
  split.
  - unfold parseTime.
    rewrite split_piece by exact Oh. rewrite split_piece by exact Om.
    rewrite split_last by exact Os.
    cbn [List.length Nat.ltb Nat.leb Nat.eqb orb nth].
    rewrite Ph, Pm, Ps, Rh, (Rm m Hm), (Rm s Hs). reflexivity.
  - unfold parseTime.
    rewrite split_piece by exact Oh. rewrite split_last by exact Om.
    cbn [List.length Nat.ltb Nat.leb Nat.eqb orb nth].
    rewrite Ph, Pm, Rh, (Rm m Hm), (Rm 0%Z ltac:(lia)). reflexivity.
Qed.

(** X4: times written with two digits a field are read back: for hours up
    to 23 and minutes and seconds up to 59, [parseTime] of ["HH:mm:ss"]
    returns the three numbers, and of ["HH:mm"] the two with seconds 0. *)
Theorem parseTime_reads_digits (h m s : Z) :
  (0 <= h <= 23)%Z -> (0 <= m <= 59)%Z -> (0 <= s <= 59)%Z ->
  parseTime (two_digits h ++ String ":" (two_digits m ++ String ":" (two_digits s)))
    = Normal {| hours := Num (IZR h); minutes := Num (IZR m);
                seconds := Num (IZR s) |} /\
  parseTime (two_digits h ++ String ":" (two_digits m))
    = Normal {| hours := Num (IZR h); minutes := Num (IZR m);
                seconds := Num 0 |}.
Proof. exact (parseTime_two_digits h m s). Qed.

Lemma parseTime_reads_digits_witness :
  parseTime (two_digits 23 ++ String ":" (two_digits 59 ++ String ":" (two_digits 7)))
    = Normal {| hours := Num 23; minutes := Num 59; seconds := Num 7 |} /\
  parseTime (two_digits 23 ++ String ":" (two_digits 59))
    = Normal {| hours := Num 23; minutes := Num 59; seconds := Num 0 |}.
Proof.
  apply (parseTime_reads_digits 23 59 7); lia.
Defined.

Lemma parseTime_result_witness :
  exists r, parseTime "06:30" = Normal r /\
    passes (hours r) 23 /\ passes (minutes r) 59 /\ passes (seconds r) 59 /\
    seconds r = Num 0.
Proof.
  pose proof (proj2 (parseTime_two_digits 6 30 0 ltac:(lia) ltac:(lia)
                       ltac:(lia))) as E.
  change (two_digits 6 ++ String ":" (two_digits 30)) with "06:30" in E.
  eexists. split; [exact E|].
  destruct (parseTime_result "06:30" _ E) as (H1 & H2 & H3 & H4).
  repeat split; auto.
Defined.

End ParseTimeFacts.

(** ** Julian day numbers *)

Section JulianFacts.
Import Julian.
Open Scope Z_scope.

Ltac divisions := Z.div_mod_to_equations; lia.

(** *** From a day number to a date *)

(** The century, the year of the century and the day of the year that
    [julianToDate] computes on its way. *)
Lemma julian_stages (a : Z) :
  let b := (4 * a + 3) / 146097 in
  let c := a - (146097 * b) / 4 in
  let d := (4 * c + 3) / 1461 in
  let e := c - (1461 * d) / 4 in
  0 <= c <= 36524 /\ 0 <= d <= 99 /\ 0 <= e <= 365 /\
  (e = 365 -> d mod 4 = 3 /\ (d = 99 -> b mod 4 = 3)).
Proof. cbv zeta. divisions. Qed.

(** The month and the day read off the day of a year that starts in
    March. *)
Lemma julian_month_day (e : Z) :
  0 <= e <= 365 ->
  let m := (5 * e + 2) / 153 in
  let day := e - (153 * m + 2) / 5 + 1 in
  0 <= m <= 11 /\ 1 <= day <= 31 /\
  (day = 31 -> m = 0 \/ m = 2 \/ m = 4 \/ m = 5 \/ m = 7 \/ m = 9 \/ m = 10) /\
  (m = 11 -> day <= 29 /\ (day = 29 -> e = 365)).
Proof. intros He. cbv zeta. divisions. Qed.

Lemma julianToDate_arguments_valid (j : Z) :
  let '(y, mi, d) := julianToDate_arguments j in
  0 <= mi <= 11 /\ 1 <= d <= days_in_month y mi.
Proof.
  unfold julianToDate_arguments. cbv zeta.
  pose proof (julian_stages (j + 32044)) as H. cbv zeta in H.
  set (b := (4 * (j + 32044) + 3) / 146097) in *.
  set (c := j + 32044 - 146097 * b / 4) in *.
  set (d := (4 * c + 3) / 1461) in *.
  set (e := c - 1461 * d / 4) in *.
  destruct H as (Hc & Hd & He & Hleap).
  pose proof (julian_month_day e He) as H. cbv zeta in H.
  set (m := (5 * e + 2) / 153) in *.
  set (day := e - (153 * m + 2) / 5 + 1) in *.
  destruct H as (Hm & Hday & H31 & Hfeb).
  clearbody day m e d c b.
  assert (Hm10 : m / 10 = 0 /\ m <= 9 \/ m / 10 = 1 /\ 10 <= m)
    by (clear - Hm; divisions).
  unfold days_in_month, leap.
  destruct Hm10 as [[E Hlt]|[E Hge]]; rewrite E;
    (split; [lia|]); (split; [lia|]).
  - (* March to December *)
    replace (m + 3 - 12 * 0 - 1 =? 1) with false by (symmetry; lia).
    destruct ((m + 3 - 12 * 0 - 1 =? 3) || (m + 3 - 12 * 0 - 1 =? 5)
              || (m + 3 - 12 * 0 - 1 =? 8) || (m + 3 - 12 * 0 - 1 =? 10)) eqn:E30;
      [|lia].
    assert (day <> 31) by (intros H; specialize (H31 H); lia). lia.
  - (* January and February *)
    assert (m = 10 \/ m = 11) as [-> | ->] by lia.
    + change (10 + 3 - 12 * 1 - 1) with 0. cbn. lia.
    + change (11 + 3 - 12 * 1 - 1) with 1. rewrite Z.eqb_refl.
      destruct (Hfeb eq_refl) as [H29 Hleap'].
      destruct (Z.eq_dec day 29) as [E29|];
        [|match goal with |- context [if ?b then 29 else 28] => destruct b end;
          lia].
      specialize (Hleap (Hleap' E29)). destruct Hleap as [Hd4 Hb4].
      assert (L : ((100 * b + d - 4800 + 1) mod 4 =? 0) = true)
        by (apply Z.eqb_eq; divisions).
      rewrite L. cbn [andb].
      destruct (Z.eq_dec d 99) as [E99|N99].
      * specialize (Hb4 E99).
        assert (L4 : ((100 * b + d - 4800 + 1) mod 400 =? 0) = true)
          by (apply Z.eqb_eq; divisions).
        rewrite L4, orb_true_r. lia.
      * assert (L1 : ((100 * b + d - 4800 + 1) mod 100 =? 0) = false)
          by (apply Z.eqb_neq; divisions).
        rewrite L1. cbn. lia.
Qed.

Lemma julian_round_trip (j : Z) :
  let '(y, mi, d) := julianToDate_arguments j in
  dateToJulian {| fullYear := y; monthIndex := mi; dayOfMonth := d |} = j.
Proof.
  unfold julianToDate_arguments, dateToJulian. cbv zeta. cbn [fullYear monthIndex dayOfMonth].
  divisions.
Qed.

Lemma julian_year_range (j : Z) :
  1757585 <= j <= 100000000 ->
  let '(y, _, _) := julianToDate_arguments j in 100 <= y <= 275000.
Proof.
  intros Hj. unfold julianToDate_arguments. cbv zeta. divisions.
Qed.

(** *** From a date to a day number and back *)

(** The day of the year that starts in March, from the month and the
    day. *)
Lemma date_month_day (y mi d : Z) :
  0 <= mi <= 11 -> 1 <= d <= days_in_month y mi ->
  let a := (14 - (mi + 1)) / 12 in
  let m := mi + 1 + 12 * a - 3 in
  let e := d - 1 + (153 * m + 2) / 5 in
  (a = 1 /\ mi <= 1 \/ a = 0 /\ 2 <= mi) /\
  0 <= m <= 11 /\ m / 10 = a /\
  0 <= e <= 365 /\ (5 * e + 2) / 153 = m /\ e - (153 * m + 2) / 5 + 1 = d /\
  (e = 365 -> leap y = true /\ mi = 1).
Proof.
  intros Hmi Hd. cbv zeta.
  assert (Hcases : mi = 0 \/ mi = 1 \/ mi = 2 \/ mi = 3 \/ mi = 4 \/ mi = 5 \/
                   mi = 6 \/ mi = 7 \/ mi = 8 \/ mi = 9 \/ mi = 10 \/ mi = 11)
    by lia.
  unfold days_in_month in Hd.
  destruct Hcases as [->|[->|[->|[->|[->|[->|[->|[->|[->|[->|[->| ->]]]]]]]]]]];
    cbn in Hd;
    try (destruct (leap y));
    repeat split; try reflexivity; try divisions;
    try (intros E; exfalso; divisions).
Qed.

(** The century and the year of the century are found again. *)
Lemma date_year (Y e : Z) :
  0 <= e <= 365 ->
  (e = 365 -> (Y + 1) mod 4 = 0 /\ ((Y + 1) mod 100 <> 0 \/ (Y + 1) mod 400 = 0)) ->
  let A := e + 365 * Y + Y / 4 - Y / 100 + Y / 400 in
  let b := (4 * A + 3) / 146097 in
  let c := A - (146097 * b) / 4 in
  let d := (4 * c + 3) / 1461 in
  b = Y / 100 /\ d = Y mod 100 /\ c - (1461 * d) / 4 = e.
Proof.
  intros He Hleap. cbv zeta.
  assert (Hb : (4 * (e + 365 * Y + Y / 4 - Y / 100 + Y / 400) + 3) / 146097
               = Y / 100) by divisions.
  rewrite Hb.
  assert (Hc : e + 365 * Y + Y / 4 - Y / 100 + Y / 400 - 146097 * (Y / 100) / 4
               = 365 * (Y mod 100) + (Y mod 100) / 4 + e) by divisions.
  rewrite Hc.
  split; [reflexivity|].
  assert (Hd : (4 * (365 * (Y mod 100) + Y mod 100 / 4 + e) + 3) / 1461
               = Y mod 100) by divisions.
  rewrite Hd. split; [reflexivity|]. divisions.
Qed.

Lemma leap_true (y : Z) :
  leap y = true -> y mod 4 = 0 /\ (y mod 100 <> 0 \/ y mod 400 = 0).
Proof.
  unfold leap. intros H. apply andb_prop in H. destruct H as [H4 H].
  apply Z.eqb_eq in H4. split; [exact H4|].
  apply orb_prop in H. destruct H as [H|H].
  - left. apply negb_true_iff in H. now apply Z.eqb_neq in H.
  - right. now apply Z.eqb_eq in H.
Qed.

Lemma date_round_trip (y mi d : Z) :
  0 <= mi <= 11 -> 1 <= d <= days_in_month y mi ->
  julianToDate_arguments
    (dateToJulian {| fullYear := y; monthIndex := mi; dayOfMonth := d |})
  = (y, mi, d).
Proof.
  intros Hmi Hd.
  pose proof (date_month_day y mi d Hmi Hd) as H. cbv zeta in H.
  unfold dateToJulian, julianToDate_arguments.
  cbn [fullYear monthIndex dayOfMonth]. cbv zeta.
  set (a := (14 - (mi + 1)) / 12) in *.
  set (m := mi + 1 + 12 * a - 3) in *.
  destruct H as (Ha & Hm & Hm10 & He & Emonth & Eday & Hleap).
  set (Y := y + 4800 - a) in *.
  replace (d + (153 * m + 2) / 5 + 365 * Y + Y / 4 - Y / 100 + Y / 400
           - 32045 + 32044)
    with (d - 1 + (153 * m + 2) / 5 + 365 * Y + Y / 4 - Y / 100 + Y / 400)
    by lia.
  set (e := d - 1 + (153 * m + 2) / 5) in *.
  assert (HY : e = 365 ->
               (Y + 1) mod 4 = 0 /\
               ((Y + 1) mod 100 <> 0 \/ (Y + 1) mod 400 = 0)).
  { intros E. destruct (Hleap E) as [L Emi].
    apply leap_true in L.
    assert (Ea : a = 1) by lia.
    unfold Y. rewrite Ea. clearbody a m e Y. destruct L as [L4 L]. divisions. }
  pose proof (date_year Y e He HY) as H. cbv zeta in H.
  destruct H as (Eb & Ed & Ee).
  rewrite Eb, Ed in *. rewrite Ee, Emonth, Eday, Hm10.
  assert (E1 : 100 * (Y / 100) + Y mod 100 - 4800 + a = y)
    by (unfold Y; clearbody a m e; divisions).
  assert (E2 : m + 3 - 12 * a - 1 = mi) by (unfold m; lia).
  rewrite E1, E2. reflexivity.
Qed.


(** X5: a day number is found again: for every day number from 1757585 (1
    January 100) to 100000000, [julianToDate] builds a date, and
    [dateToJulian] of that date is the day number. *)
Theorem julianToDate_then_dateToJulian (jdn : Z) :
  1757585 <= jdn <= 100000000 ->
  exists date, julianToDate jdn = Some date /\ dateToJulian date = jdn.
Proof.
  intros Hj. unfold julianToDate.
  pose proof (julianToDate_arguments_valid jdn) as Hv.
  pose proof (julian_round_trip jdn) as Hr.
  pose proof (julian_year_range jdn Hj) as Hy.
  destruct (julianToDate_arguments jdn) as [[y mi] d].
  destruct Hv as (Hmi & Hd).
  unfold new_Date.
  replace ((100 <=? y) && (y <=? 275000) && (0 <=? mi) && (mi <=? 11)
           && (1 <=? d) && (d <=? days_in_month y mi)) with true.
  - eexists. split; [reflexivity|exact Hr].
  - symmetry. repeat (apply andb_true_intro; split); apply Z.leb_le; lia.
Qed.

Lemma julianToDate_then_dateToJulian_witness :
  exists date, julianToDate 2451545 = Some date /\ dateToJulian date = 2451545.
Proof.
  apply (julianToDate_then_dateToJulian 2451545). lia.
Defined.

(** X6: a date is found again: for every calendar date from the year 100
    to the year 275000 (month index 0 to 11, day within the month),
    [julianToDate] of its [dateToJulian] is that date. *)
Theorem dateToJulian_then_julianToDate (date : LocalDate) :
  100 <= fullYear date <= 275000 ->
  0 <= monthIndex date <= 11 ->
  1 <= dayOfMonth date <= days_in_month (fullYear date) (monthIndex date) ->
  julianToDate (dateToJulian date) = Some date.
Proof.
  destruct date as [y mi d]. cbn [fullYear monthIndex dayOfMonth].
  intros Hy Hmi Hd. unfold julianToDate.
  rewrite (date_round_trip y mi d Hmi Hd).
  unfold new_Date.
  replace ((100 <=? y) && (y <=? 275000) && (0 <=? mi) && (mi <=? 11)
           && (1 <=? d) && (d <=? days_in_month y mi)) with true;
    [reflexivity|].
  symmetry. repeat (apply andb_true_intro; split); apply Z.leb_le; lia.
Qed.

Lemma dateToJulian_then_julianToDate_witness :
  julianToDate (dateToJulian {| fullYear := 2024; monthIndex := 1;
                                dayOfMonth := 29 |})
  = Some {| fullYear := 2024; monthIndex := 1; dayOfMonth := 29 |}.
Proof.
  apply (dateToJulian_then_julianToDate
           {| fullYear := 2024; monthIndex := 1; dayOfMonth := 29 |});
    cbn; lia.
Defined.

(** X7: [dateToJulian] tells dates apart: two calendar dates (month index
    0 to 11, day within the month, any year) with the same day number are
    the same date. *)
Theorem dateToJulian_injective (date1 date2 : LocalDate) :
  0 <= monthIndex date1 <= 11 ->
  1 <= dayOfMonth date1 <= days_in_month (fullYear date1) (monthIndex date1) ->
  0 <= monthIndex date2 <= 11 ->
  1 <= dayOfMonth date2 <= days_in_month (fullYear date2) (monthIndex date2) ->
  dateToJulian date1 = dateToJulian date2 -> date1 = date2.
Proof.
  destruct date1 as [y1 m1 d1], date2 as [y2 m2 d2].
  cbn [fullYear monthIndex dayOfMonth]. intros Hm1 Hd1 Hm2 Hd2 E.
  pose proof (date_round_trip y1 m1 d1 Hm1 Hd1) as R1.
  pose proof (date_round_trip y2 m2 d2 Hm2 Hd2) as R2.
  rewrite E in R1. rewrite R1 in R2. now injection R2 as -> -> ->.
Qed.

Lemma dateToJulian_injective_witness :
  {| fullYear := 2024; monthIndex := 1; dayOfMonth := 29 |} =
  {| fullYear := 2024; monthIndex := 1; dayOfMonth := 29 |}.
Proof.
  apply (dateToJulian_injective
           {| fullYear := 2024; monthIndex := 1; dayOfMonth := 29 |}
           {| fullYear := 2024; monthIndex := 1; dayOfMonth := 29 |});
    cbn; try lia; reflexivity.
Defined.

End JulianFacts.

(** ** Geo: elevation zones, compass directions, time-zone suggestions *)

Section GeoZonesFacts.
Import JSMath GeoZones.

(** X8: for every elevation that passes the validation, from -500 m to
    9000 m, [getElevationZone] returns a pressure estimate of
    1013.25 - 0.012 * elevation hPa, below sea level too; the estimate lies
    between 905.25 and 1019.25 hPa, so the floor of 300 hPa is never the
    value returned. *)
Theorem getElevationZone_pressure (e : R) :
  -500 <= e <= 9000 ->
  exists zone,
    getElevationZone (VNumber (Num e)) = Normal zone /\
    get zone "pressureEstimate" = VNumber (Num (1013.25 - 0.012 * e)) /\
    905.25 <= 1013.25 - 0.012 * e <= 1019.25.
Proof.
  intros He.
  assert (Hmax : forall p, 300 <= p -> Rmax p 300 = p).
  { intros p Hp. apply Rmax_left. exact Hp. }
  unfold getElevationZone.
  rewrite (proj2 (validateElevation_returns _))
    by (exists e; split; [reflexivity|exact He]).
  cbn [bind real_of].
  destruct (Rlt_dec e 0) as [Hneg|Hpos].
  - eexists. split; [reflexivity|]. cbn.
    rewrite Rabs_left by exact Hneg.
    rewrite Hmax by lra. split; [f_equal; f_equal; lra|lra].
  - assert (E : forall (z d : string),
               exists zone,
                 Normal [ ("zone", VString z); ("description", VString d);
                          ("pressureEstimate",
                           VNumber (Num (Rmax (1013.25 - e * 0.012) 300)));
                          ("elevationFeet", VNumber (Num (e * 3.28084))) ]
                 = Normal zone /\
                 get zone "pressureEstimate"
                 = VNumber (Num (1013.25 - 0.012 * e)) /\
                 905.25 <= 1013.25 - 0.012 * e <= 1019.25).
    { intros z d. eexists. split; [reflexivity|]. cbn.
      rewrite Hmax by lra. split; [f_equal; f_equal; lra|lra]. }
    destruct (Rlt_dec e 500); [apply E|].
    destruct (Rlt_dec e 1500); [apply E|].
    destruct (Rlt_dec e 3000); apply E.
Qed.

Lemma getElevationZone_pressure_witness :
  exists zone,
    getElevationZone (VNumber (Num (-400))) = Normal zone /\
    get zone "pressureEstimate" = VNumber (Num (1013.25 - 0.012 * -400)) /\
    905.25 <= 1013.25 - 0.012 * -400 <= 1019.25.
Proof. apply (getElevationZone_pressure (-400)). lra. Defined.

(** X9: the zone "Unknown" is returned for an omitted ([undefined])
    elevation only.  [null], which the code tests for beside [undefined],
    never gets there: the validation before the test throws on it, as on
    every value that is not a number. *)
Theorem getElevationZone_unknown (elevation : value) :
  (elevation = VUndefined ->
   exists zone, getElevationZone elevation = Normal zone /\
                get zone "zone" = VString "Unknown") /\
  (typeof elevation <> "number" -> elevation <> VUndefined ->
   getElevationZone elevation = throw Error "Elevation must be a number") /\
  (forall zone, getElevationZone elevation = Normal zone ->
                get zone "zone" = VString "Unknown" ->
                elevation = VUndefined).
Proof.
  split; [|split].
  - intros ->. eexists. split; reflexivity.
  - destruct elevation; cbn; intros H1 H2; try reflexivity; congruence.
  - intros zone. unfold getElevationZone.
    destruct elevation as [| | |[|e]| | | |]; cbn; try discriminate;
      try reflexivity.
    match goal with |- context [orb ?a ?b] => destruct (orb a b) end;
      cbn; try discriminate.
    destruct (Rlt_dec e 0); [|destruct (Rlt_dec e 500);
      [|destruct (Rlt_dec e 1500); [|destruct (Rlt_dec e 3000)]]];
      cbn; intros [= <-]; cbn; discriminate.
Qed.

(** ** Compass *)

Lemma Int_part_between (r : R) (k : Z) :
  IZR k <= r < IZR k + 1 -> Int_part r = k.
Proof. intros H. symmetry. apply Int_part_spec. lra. Qed.

Lemma Math_round_sector (b : R) (k : Z) :
  22.5 * IZR k - 11.25 <= b < 22.5 * IZR k + 11.25 ->
  Math_round (div (Num b) (Num 22.5)) = Num (IZR k).
Proof.
  intros H. cbn. do 2 f_equal. apply Int_part_between. lra.
Qed.

Lemma truncate_small (x : R) : -1 < x < 1 -> truncate x = 0%Z.
Proof.
  intros H. unfold truncate. destruct (Rle_dec 0 x).
  - apply Int_part_between. lra.
  - rewrite (Int_part_between (- x) 0); [reflexivity|lra].
Qed.

Lemma element_whole (array : list string) (i : Z) :
  element array (Num (IZR i)) =
  if (0 <=? i)%Z then
    match nth_error array (Z.to_nat i) with
    | Some s => VString s
    | None => VUndefined
    end
  else VUndefined.
Proof.
  unfold element. rewrite Int_part_IZR.
  destruct (Req_dec_T (IZR i) (IZR i)); [reflexivity|contradiction].
Qed.

(** The sixteen sectors and the closing one. *)
Lemma compass_index (k : Z) :
  (0 <= k <= 16)%Z ->
  rem (Num (IZR k)) (Num 16) = Num (IZR (k mod 16)).
Proof.
  intros Hk. unfold rem.
  destruct (Req_dec_T 16 0) as [E|_]; [lra|].
  f_equal.
  assert (Hc : (k = 16 \/ 0 <= k < 16)%Z) by lia.
  destruct Hc as [->|Hlt].
  - rewrite (truncate_exact (16 / 16) 1) by (cbn; lra).
    change (16 mod 16)%Z with 0%Z. lra.
  - rewrite Z.mod_small by lia.
    assert (0 <= IZR k < 16).
    { split; [apply IZR_le; lia|apply IZR_lt; lia]. }
    rewrite truncate_small; [lra|].
    split; [apply Rlt_le_trans with 0; [lra|]|].
    + apply Rmult_le_pos; lra.
    + apply Rmult_lt_reg_r with 16; [lra|]. field_simplify. lra.
Qed.

Lemma compass_sector_name (k : Z) :
  (0 <= k <= 16)%Z ->
  element directions (Num (IZR (k mod 16))) =
  VString (nth (Z.to_nat (k mod 16)) directions "").
Proof.
  intros Hk. rewrite element_whole.
  assert (Hm : (0 <= k mod 16 < 16)%Z) by (apply Z.mod_pos_bound; lia).
  destruct (0 <=? k mod 16)%Z eqn:E; [|apply Z.leb_gt in E; lia].
  destruct (nth_error directions (Z.to_nat (k mod 16))) as [s|] eqn:En.
  - f_equal. symmetry. apply nth_error_nth. exact En.
  - apply nth_error_None in En. cbn in En. lia.
Qed.

(** X10: the compass rose.  A bearing within 11.25 degrees of the k-th
    multiple of 22.5 degrees (the lower end included, the upper excluded),
    for k from 0 to 16, gets the k-th of the sixteen direction names, the
    sixteenth sector being north again. *)
Theorem getCompassDirection_sector (bearing : R) (k : Z) :
  (0 <= k <= 16)%Z ->
  22.5 * IZR k - 11.25 <= bearing < 22.5 * IZR k + 11.25 ->
  getCompassDirection (Num bearing) =
  VString (nth (Z.to_nat (k mod 16)) directions "").
Proof.
  intros Hk Hb. unfold getCompassDirection.
  rewrite (Math_round_sector bearing k Hb), (compass_index k Hk).
  apply compass_sector_name. exact Hk.
Qed.

Lemma getCompassDirection_sector_witness :
  getCompassDirection (Num 100) = VString "E".
Proof.
  apply (getCompassDirection_sector 100 4); [lia|lra].
Defined.

(** X11: every bearing from 0 to 360 degrees gets one of the sixteen
    direction names. *)
Theorem getCompassDirection_on_circle (bearing : R) :
  0 <= bearing <= 360 ->
  exists name, In name directions /\
               getCompassDirection (Num bearing) = VString name.
Proof.
  intros Hb.
  set (k := Int_part (bearing / 22.5 + / 2)).
  destruct (base_Int_part (bearing / 22.5 + / 2)) as [H1 H2].
  fold k in H1, H2.
  assert (Hk : (0 <= k <= 16)%Z).
  { split.
    - apply Z.lt_succ_r. apply lt_IZR. rewrite succ_IZR. lra.
    - apply Z.lt_succ_r. apply lt_IZR. cbn. lra. }
  assert (Hs : 22.5 * IZR k - 11.25 <= bearing < 22.5 * IZR k + 11.25) by lra.
  exists (nth (Z.to_nat (k mod 16)) directions ""). split.
  - apply nth_In. cbn.
    assert (0 <= k mod 16 < 16)%Z by (apply Z.mod_pos_bound; lia). lia.
  - unfold getCompassDirection.
    rewrite (Math_round_sector bearing k Hs), (compass_index k Hk).
    apply compass_sector_name. exact Hk.
Qed.

Lemma getCompassDirection_on_circle_witness :
  exists name, In name directions /\
               getCompassDirection (Num 359) = VString name.
Proof. apply (getCompassDirection_on_circle 359). lra. Defined.

(** X12: a negative bearing is not brought back into the circle: from
    -348.75 up to, but not including, -11.25 degrees the index is negative
    and the result is [undefined], not a direction name. *)
Theorem getCompassDirection_negative (bearing : R) :
  -348.75 <= bearing < -11.25 ->
  getCompassDirection (Num bearing) = VUndefined.
Proof.
  intros Hb.
  set (k := Int_part (bearing / 22.5 + / 2)).
  destruct (base_Int_part (bearing / 22.5 + / 2)) as [H1 H2].
  fold k in H1, H2.
  assert (Hk : (-15 <= k <= -1)%Z).
  { split.
    - apply Z.lt_succ_r. apply lt_IZR. rewrite succ_IZR. lra.
    - apply Z.lt_succ_r. apply lt_IZR. cbn. lra. }
  assert (Hs : 22.5 * IZR k - 11.25 <= bearing < 22.5 * IZR k + 11.25) by lra.
  unfold getCompassDirection. rewrite (Math_round_sector bearing k Hs).
  unfold rem. destruct (Req_dec_T 16 0) as [E|_]; [lra|].
  assert (-15 <= IZR k <= -1).
  { split; [apply IZR_le; lia|apply IZR_le; lia]. }
  rewrite truncate_small by lra.
  replace (IZR k - 16 * 0) with (IZR k) by lra.
  rewrite element_whole.
  destruct (0 <=? k)%Z eqn:E; [apply Z.leb_le in E; lia|reflexivity].
Qed.

Lemma getCompassDirection_negative_witness :
  getCompassDirection (Num (-90)) = VUndefined.
Proof. apply getCompassDirection_negative. lra. Defined.

(** ** Time-zone suggestions *)

Lemma firstn_incl {A : Type} (n : nat) (l : list A) (x : A) :
  In x (firstn n l) -> In x l.
Proof.
  intros H. rewrite <- (firstn_skipn n l). apply in_or_app. left. exact H.
Qed.

Section Suggestions.
Variable names : list string.
Variable utcOffset : string -> number.

(** The test of the loop, on real numbers. *)
Lemma offset_test (lon : R) (tz : string) :
  leb (Math_abs (sub (utcOffset tz)
                     (mul (Math_round (div (Num lon) (Num 15))) (Num 60))))
      (Num 30) = true <->
  exists offset,
    utcOffset tz = Num offset /\
    Rabs (offset - IZR (Int_part (lon / 15 + / 2)) * 60) <= 30.
Proof.
  destruct (utcOffset tz) as [|o]; cbn.
  - split; [discriminate|]. intros (o & H & _). discriminate.
  - destruct (Rle_dec _ _) as [H|H].
    + split; [|reflexivity]. intros _. exists o. split; [reflexivity|exact H].
    + split; [discriminate|]. intros (o' & [= <-] & H'). contradiction.
Qed.

Lemma getTimezoneSuggestions_value (lat lon : R) :
  -90 <= lat <= 90 -> -180 <= lon <= 180 ->
  let near tz :=
    leb (Math_abs (sub (utcOffset tz)
                       (mul (Math_round (div (Num lon) (Num 15))) (Num 60))))
        (Num 30) in
  getTimezoneSuggestions names utcOffset (VNumber (Num lat)) (VNumber (Num lon))
  = Normal
      (filter (fun tz => includes priorityTimezones tz) (filter near names) ++
       firstn 5 (filter (fun tz => negb (includes priorityTimezones tz))
                        (filter near names)))%list.
Proof.
  intros Hlat Hlon near. unfold getTimezoneSuggestions.
  rewrite (proj2 (validateCoordinates_returns _ _))
    by (exists lat, lon; repeat split; try reflexivity; lra).
  reflexivity.
Qed.

(** X13: for valid coordinates [getTimezoneSuggestions] returns the
    priority zones first and then at most five others.  The priority zones
    returned are exactly the known zone names of the priority list whose
    offset is within 30 minutes of 60 times the whole number nearest to
    longitude / 15; the others meet the same test and are not in the
    priority list, so the limit of five never drops a priority zone. *)
Theorem getTimezoneSuggestions_result (lat lon : R) :
  -90 <= lat <= 90 -> -180 <= lon <= 180 ->
  exists priority others,
    getTimezoneSuggestions names utcOffset
                           (VNumber (Num lat)) (VNumber (Num lon))
    = Normal (priority ++ others)%list /\
    (forall tz,
        In tz priority <->
        In tz names /\
        (exists offset,
            utcOffset tz = Num offset /\
            Rabs (offset - IZR (Int_part (lon / 15 + / 2)) * 60) <= 30) /\
        includes priorityTimezones tz = true) /\
    (forall tz,
        In tz others ->
        In tz names /\
        (exists offset,
            utcOffset tz = Num offset /\
            Rabs (offset - IZR (Int_part (lon / 15 + / 2)) * 60) <= 30) /\
        includes priorityTimezones tz = false) /\
    (List.length others <= 5)%nat.
Proof.
  intros Hlat Hlon. do 2 eexists.
  split; [apply getTimezoneSuggestions_value; assumption|].
  split; [|split].
  - intros tz. rewrite !filter_In, offset_test. tauto.
  - intros tz Hin. apply firstn_incl in Hin.
    rewrite !filter_In, offset_test in Hin. destruct Hin as ((H1 & H2) & H3).
    apply negb_true_iff in H3. tauto.
  - apply firstn_le_length.
Qed.

End Suggestions.

Lemma getTimezoneSuggestions_result_witness :
  exists priority others,
    getTimezoneSuggestions ["Asia/Kolkata"; "Asia/Karachi"; "UTC"]
      (fun tz => if String.eqb tz "Asia/Kolkata" then Num 330
                 else if String.eqb tz "Asia/Karachi" then Num 300
                 else Num 0)
      (VNumber (Num 25)) (VNumber (Num 83))
    = Normal (priority ++ others)%list /\
    (List.length others <= 5)%nat.
Proof.
  destruct (getTimezoneSuggestions_result
              ["Asia/Kolkata"; "Asia/Karachi"; "UTC"]
              (fun tz => if String.eqb tz "Asia/Kolkata" then Num 330
                         else if String.eqb tz "Asia/Karachi" then Num 300
                         else Num 0) 25 83)
    as (priority & others & H1 & _ & _ & H4); [lra|lra|].
  exists priority, others. split; assumption.
Defined.

End GeoZonesFacts.

(** ** Refraction: the rigorous model and the correction of the sunrise *)

Section RefractionCorrectionFacts.
Import Refraction.

(** The refractivity n - 1 is not negative. *)
Lemma refractivity_nonneg (p t h : R) :
  500 <= p <= 1100 -> -50 <= t <= 50 -> 0 <= h <= 1 ->
  0 <= _calculateRefractiveIndex p t h - 1.
Proof.
  intros Hp Ht Hh. unfold _calculateRefractiveIndex, _saturatedVaporPressure.
  set (T := t + 273.15).
  assert (HT : 223.15 <= T <= 323.15) by (unfold T; lra).
  assert (HiT : 0 < / T) by (apply Rinv_0_lt_compat; lra).
  assert (HiT1 : / T <= / 223.15).
  { apply Rinv_le_contravar; lra. }
  assert (Hexp : 0 < exp (17.27 * t / (t + 237.3))) by apply exp_pos.
  set (E := exp (17.27 * t / (t + 237.3))) in *. clearbody E.
  assert (Hdry : 0 <= p / T * (287.6155 + 1.62887 / T + 0.01360 / (T * T))
                      * 1e-6).
  { apply Rmult_le_pos; [|lra].
    apply Rmult_le_pos.
    - apply Rmult_le_pos; lra.
    - assert (0 <= 1.62887 / T) by (apply Rmult_le_pos; lra).
      assert (0 <= 0.01360 / (T * T)).
      { apply Rmult_le_pos; [lra|]. apply Rlt_le, Rinv_0_lt_compat. nra. }
      lra. }
  assert (Hwet : 0 <= h * (6.1078 * E) / T * (1792.0 - 67.2 / T) * 1e-6).
  { apply Rmult_le_pos; [|lra].
    apply Rmult_le_pos.
    - apply Rmult_le_pos; [|lra]. apply Rmult_le_pos; nra.
    - assert (67.2 / T <= 67.2 / 223.15).
      { unfold Rdiv. apply Rmult_le_compat_l; lra. }
      lra. }
  lra.
Qed.

(** The tangent of the rigorous formula is taken at minus the altitude. *)
Lemma rigorous_tangent_neg (a : R) :
  0 < a < 90 -> tan (PI / 2 - (a + 90) * PI / 180) < 0.
Proof.
  intros Ha. pose proof PI_RGT_0 as HPI.
  apply tan_lt_0; nra.
Qed.

Lemma rigorous_above (a p t h : R) :
  -2 <= a < 90 ->
  500 <= p <= 1100 -> -50 <= t <= 50 -> 0 <= h <= 1 ->
  _rigorousRefraction (fun _ _ _ _ => None) a p t h = Some 0.
Proof.
  intros Ha Hp Ht Hh. unfold _rigorousRefraction.
  destruct (Rlt_dec a (-2)) as [Hlt|_]; [lra|].
  f_equal. apply Rmax_right.
  assert (Hc : 0 < Rmax a 0.01 < 90).
  { split; [apply Rlt_le_trans with 0.01; [lra|apply Rmax_r]|].
    apply Rmax_lub_lt; lra. }
  pose proof (rigorous_tangent_neg _ Hc) as Htan.
  pose proof (refractivity_nonneg p t h Hp Ht Hh) as Hn.
  pose proof PI_RGT_0 as HPI.
  assert (HiPI : 0 < / PI) by (apply Rinv_0_lt_compat; exact HPI).
  set (n1 := _calculateRefractiveIndex p t h - 1) in *.
  set (tn := tan (PI / 2 - (Rmax a 0.01 + 90) * PI / 180)) in *.
  clearbody n1 tn.
  assert (H1 : n1 * tn <= 0) by nra.
  unfold Rdiv. nra.
Qed.

Lemma default_in_range (d lo hi : R) (o : option R) :
  lo <= d <= hi -> (forall x, o = Some x -> lo <= x <= hi) ->
  lo <= default d o <= hi.
Proof. intros Hd Ho. destruct o as [x|]; cbn; [apply Ho; reflexivity|exact Hd]. Qed.

Lemma rigorous_zero (a : R) (p t h : option R) :
  a < 90 ->
  (forall x, p = Some x -> 500 <= x <= 1100) ->
  (forall x, t = Some x -> -50 <= x <= 50) ->
  (forall x, h = Some x -> 0 <= x <= 1) ->
  calculateRefraction "rigorous" a p t h = 0.
Proof.
  intros Ha Hp Ht Hh.
  assert (Hhorizon : calculateRefraction "rigorous" 0 None None None = 0).
  { assert (E := calculateRefraction_above "rigorous" 0 None None None
                   ltac:(lra)).
    unfold calculateRefraction_body in E. cbn [String.eqb Ascii.eqb Bool.eqb] in E.
    cbn [default] in E.
    rewrite rigorous_above in E by lra. now injection E. }
  destruct (Rlt_dec a (-2)) as [Hlow|Hup].
  - rewrite (calculateRefraction_below "rigorous" a p t h Hlow).
    cbv zeta. rewrite Hhorizon. lra.
  - assert (E := calculateRefraction_above "rigorous" a p t h Hup).
    unfold calculateRefraction_body in E. cbn [String.eqb Ascii.eqb Bool.eqb] in E.
    rewrite rigorous_above in E.
    + now injection E.
    + lra.
    + apply default_in_range; [lra|exact Hp].
    + apply default_in_range; [lra|exact Ht].
    + apply default_in_range; [lra|exact Hh].
Qed.

(** X14: the rigorous model always answers 0.  For every altitude below 90
    degrees, with pressure in [500, 1100], temperature in [-50, 50] and
    humidity in [0, 1] (given or left to their defaults),
    [calculateRefraction] under the model "rigorous" returns 0: the formula
    takes the tangent of minus the altitude, which is negative, and the
    result is clamped at 0; below -2 degrees the extrapolation starts from
    the value 0 at the horizon. *)
Theorem calculateRefraction_rigorous_is_zero (a : R) (p t h : option R) :
  a < 90 ->
  (forall x, p = Some x -> 500 <= x <= 1100) ->
  (forall x, t = Some x -> -50 <= x <= 50) ->
  (forall x, h = Some x -> 0 <= x <= 1) ->
  calculateRefraction "rigorous" a p t h = 0.
Proof. exact (rigorous_zero a p t h). Qed.

Lemma calculateRefraction_rigorous_is_zero_witness :
  calculateRefraction "rigorous" 10 (Some 900) None (Some 0.8) = 0.
Proof.
  apply calculateRefraction_rigorous_is_zero; [lra|..];
    intros x [= <-]; lra.
Defined.

(** *** The refraction at sunrise *)

Lemma sunrise_refraction_nonneg model (p t h : R) :
  500 <= p <= 1100 -> -50 <= t <= 50 -> 0 <= h <= 1 ->
  0 <= calculateSunriseRefraction model (Some p) (Some t) (Some h).
Proof.
  intros Hp Ht Hh. unfold calculateSunriseRefraction. cbn [default].
  assert (E := calculateRefraction_above model (-0.833) (Some p) (Some t)
                 (Some h) ltac:(lra)).
  unfold calculateRefraction_body, _rigorousRefraction, _saemundssonRefraction,
    _bennettRefraction, default in E.
  destruct (Rlt_dec (-0.833) (-2)) as [Hlt|_]; [lra|].
  assert (Hc : 0.01 <= Rmax (-0.833) 0.01 <= 89.89).
  { split; [apply Rmax_r|apply Rmax_lub; lra]. }
  pose proof (atmosphere_factor_pos p t Hp Ht) as Hf.
  destruct (String.eqb model "rigorous").
  { injection E as E. rewrite E. apply Rmax_r. }
  destruct (String.eqb model "saemundsson"); injection E as E; rewrite E.
  - pose proof (angle_in_first_quadrant _ 10.3 5.11 Hc
                  ltac:(lra) ltac:(lra)) as [H1 H2].
    pose proof (tan_pos_deg _ H1 H2) as Htan.
    assert (0 < 1.02 / tan ((Rmax (-0.833) 0.01
                             + 10.3 / (Rmax (-0.833) 0.01 + 5.11)) * PI / 180))
      by (apply Rdiv_lt_0_compat; lra).
    rewrite Rmult_assoc. apply Rlt_le, Rmult_lt_0_compat; assumption.
  - pose proof (angle_in_first_quadrant _ 7.31 4.4 Hc
                  ltac:(lra) ltac:(lra)) as [H1 H2].
    pose proof (tan_pos_deg _ H1 H2) as Htan.
    assert (0 < 1 / tan ((Rmax (-0.833) 0.01
                          + 7.31 / (Rmax (-0.833) 0.01 + 4.4)) * PI / 180))
      by (apply Rdiv_lt_0_compat; lra).
    rewrite Rmult_assoc. apply Rlt_le, Rmult_lt_0_compat; assumption.
Qed.

Lemma cos_deg_nonneg (d : R) : -90 <= d <= 90 -> 0 <= cos (d * PI / 180).
Proof.
  intros Hd. pose proof PI_RGT_0 as HPI. apply cos_ge_0; nra.
Qed.

Lemma cos_deg_le_1 (d : R) : cos (d * PI / 180) <= 1.
Proof. apply COS_bound. Qed.

Lemma refractionToTimeCorrection_eq (r lat dec : R) :
  refractionToTimeCorrection r lat dec =
  4 * r * (cos (dec * PI / 180) * cos (lat * PI / 180)).
Proof. unfold refractionToTimeCorrection. field. Qed.

(** X15: [refractionToTimeCorrection] gives four seconds for each arcminute
    of refraction, scaled by cos(declination) * cos(latitude); for a
    refraction that is not negative, a latitude in [-90, 90] and a
    declination in [-90, 90] the correction lies between 0 and four
    seconds for each arcminute. *)
Theorem refractionToTimeCorrection_bounds (r lat dec : R) :
  0 <= r -> -90 <= lat <= 90 -> -90 <= dec <= 90 ->
  refractionToTimeCorrection r lat dec =
    4 * r * (cos (dec * PI / 180) * cos (lat * PI / 180)) /\
  0 <= refractionToTimeCorrection r lat dec <= 4 * r.
Proof.
  intros Hr Hlat Hdec. split; [apply refractionToTimeCorrection_eq|].
  rewrite refractionToTimeCorrection_eq.
  pose proof (cos_deg_nonneg lat Hlat). pose proof (cos_deg_nonneg dec Hdec).
  pose proof (cos_deg_le_1 lat). pose proof (cos_deg_le_1 dec).
  set (cl := cos (lat * PI / 180)) in *.
  set (cd := cos (dec * PI / 180)) in *. clearbody cl cd.
  assert (0 <= cd * cl <= 1) by nra.
  nra.
Qed.

Lemma refractionToTimeCorrection_bounds_witness :
  refractionToTimeCorrection 34 25 23 =
    4 * 34 * (cos (23 * PI / 180) * cos (25 * PI / 180)) /\
  0 <= refractionToTimeCorrection 34 25 23 <= 4 * 34.
Proof. apply refractionToTimeCorrection_bounds; lra. Defined.

Lemma truncate_le (y : R) (z : Z) : y <= IZR z -> (truncate y <= z)%Z.
Proof.
  intros H. unfold truncate. destruct (Rle_dec 0 y).
  - destruct (base_Int_part y) as [H1 _]. apply le_IZR. lra.
  - destruct (base_Int_part (- y)) as [H1 H2].
    apply Z.lt_succ_r, lt_IZR. rewrite succ_IZR, opp_IZR. lra.
Qed.

Section WithLibraries.
Variable lib : Libraries.

Lemma declination_range (date : Z) :
  -90 <= _calculateSolarDeclination lib date <= 90.
Proof.
  unfold _calculateSolarDeclination.
  pose proof (SIN_bound
                (360 * (284 + IZR (_getDayOfYear lib date)) / 365 * PI / 180)).
  lra.
Qed.

(** X16: [applySunriseCorrection] never moves the sunrise later.  For a
    latitude in [-90, 90], pressure in [500, 1100], temperature in
    [-50, 50] and humidity in [0, 1] the corrected instant is at or before
    the given one, whatever the refraction model, the date and the day of
    the year. *)
Theorem applySunriseCorrection_not_later model (sunriseTime : Z)
        (latitude longitude p t h : R) :
  -90 <= latitude <= 90 ->
  500 <= p <= 1100 -> -50 <= t <= 50 -> 0 <= h <= 1 ->
  exists corrected,
    applySunriseCorrection lib model (Instant sunriseTime)
                           latitude longitude p t h = Instant corrected /\
    (corrected <= sunriseTime)%Z.
Proof.
  intros Hlat Hp Ht Hh. eexists. split; [reflexivity|].
  apply truncate_le.
  pose proof (sunrise_refraction_nonneg model p t h Hp Ht Hh) as Hr.
  pose proof (declination_range sunriseTime) as Hd.
  rewrite refractionToTimeCorrection_eq.
  pose proof (cos_deg_nonneg latitude Hlat) as Hcl.
  pose proof (cos_deg_nonneg _ Hd) as Hcd.
  set (r := calculateSunriseRefraction model (Some p) (Some t) (Some h)) in *.
  set (cl := cos (latitude * PI / 180)) in *.
  set (cd := cos (_calculateSolarDeclination lib sunriseTime * PI / 180)) in *.
  clearbody r cl cd.
  assert (0 <= cd * cl) by nra.
  assert (0 <= r * (cd * cl)) by nra.
  lra.
Qed.

(** X17: under the rigorous model [applySunriseCorrection] changes nothing:
    with pressure in [500, 1100], temperature in [-50, 50] and humidity in
    [0, 1] it returns the date it was given. *)
Theorem applySunriseCorrection_rigorous (sunriseTime : Date)
        (latitude longitude p t h : R) :
  500 <= p <= 1100 -> -50 <= t <= 50 -> 0 <= h <= 1 ->
  applySunriseCorrection lib "rigorous" sunriseTime latitude longitude p t h
  = sunriseTime.
Proof.
  intros Hp Ht Hh. destruct sunriseTime as [|ms]; [reflexivity|].
  unfold applySunriseCorrection, calculateSunriseRefraction. cbn [default].
  rewrite rigorous_zero; try lra; try (intros x [= <-]; lra).
  rewrite refractionToTimeCorrection_eq. f_equal.
  apply truncate_exact. lra.
Qed.

End WithLibraries.

Lemma applySunriseCorrection_not_later_witness :
  exists corrected,
    applySunriseCorrection Example.lib "bennett" (Instant Example.sunrise_ms)
                           25 83 1013.25 15 0.5 = Instant corrected /\
    (corrected <= Example.sunrise_ms)%Z.
Proof. apply applySunriseCorrection_not_later; lra. Defined.

Lemma applySunriseCorrection_rigorous_witness :
  applySunriseCorrection Example.lib "rigorous" (Instant Example.sunrise_ms)
                         25 83 1013.25 15 0.5 = Instant Example.sunrise_ms.
Proof. apply applySunriseCorrection_rigorous; lra. Defined.

End RefractionCorrectionFacts.

(** ** Time: arithmetic on dates *)

Section TimeArithFacts.
Import TimeArith.




End TimeArithFacts.

(** ** Astronomical: the corrections move the sunrise earlier *)

Section SunriseCorrectionFacts.
Import Astronomical.

Lemma truncate_gt (y : R) : y - 1 < IZR (truncate y).
Proof.
  unfold truncate. destruct (Rle_dec 0 y).
  - destruct (base_Int_part y) as [_ H]. lra.
  - destruct (base_Int_part (- y)) as [H _]. rewrite opp_IZR. lra.
Qed.

Lemma basicRefraction_range (latitude : R) :
  -90 <= latitude <= 90 ->
  0 <= _calculateBasicRefraction latitude <= 34 / 15.
Proof.
  intros Hlat. unfold _calculateBasicRefraction.
  pose proof (cos_deg_nonneg latitude Hlat).
  pose proof (cos_deg_le_1 latitude).
  lra.
Qed.

(** X20: the high-precision sunrise is never later than the sunrise of
    SunCalc it starts from, and earlier by less than
    1760 * sqrt(elevation) + 2269 milliseconds (the square root taken of 0
    for an elevation that is not positive), for every latitude in
    [-90, 90]. *)
Theorem highPrecisionSunrise_not_later lib (latitude longitude elevation : R)
        (dateObj : Date) (sunrise : Z) :
  -90 <= latitude <= 90 ->
  SunCalc.sunrise (SunCalc_getTimes lib dateObj latitude longitude)
  = Instant sunrise ->
  exists corrected,
    _calculateHighPrecisionSunrise lib latitude longitude elevation dateObj
    = Instant corrected /\
    (corrected <= sunrise)%Z /\
    IZR (sunrise - corrected) < 1760 * sqrt (Rmax elevation 0) + 2269.
Proof.
  intros Hlat Hs. unfold _calculateHighPrecisionSunrise. rewrite Hs.
  pose proof (basicRefraction_range latitude Hlat) as Hb.
  set (b := _calculateBasicRefraction latitude) in *. clearbody b.
  destruct (Rlt_dec 0 elevation) as [He|He].
  - rewrite Rmax_left by lra.
    pose proof (sqrt_pos elevation) as Hq.
    unfold _calculateElevationCorrection.
    set (q := sqrt elevation) in *. clearbody q.
    cbn [Moment.add Moment.subtract Moment.milliseconds].
    set (s1 := truncate (IZR sunrise + -1.76 * q / 60 * 60000)).
    assert (H1 : (s1 <= sunrise)%Z) by (apply truncate_le; lra).
    pose proof (truncate_gt (IZR sunrise + -1.76 * q / 60 * 60000)) as H2.
    fold s1 in H2.
    eexists. split; [reflexivity|].
    assert (H3 : (truncate (IZR s1 - b * 1000) <= s1)%Z)
      by (apply truncate_le; lra).
    pose proof (truncate_gt (IZR s1 - b * 1000)) as H4.
    split; [lia|]. rewrite minus_IZR. lra.
  - rewrite Rmax_right by lra. rewrite sqrt_0.
    cbn [Moment.subtract Moment.milliseconds].
    eexists. split; [reflexivity|].
    assert (H3 : (truncate (IZR sunrise - b * 1000) <= sunrise)%Z)
      by (apply truncate_le; lra).
    pose proof (truncate_gt (IZR sunrise - b * 1000)) as H4.
    split; [lia|]. rewrite minus_IZR. lra.
Qed.

Lemma highPrecisionSunrise_not_later_witness :
  exists corrected,
    _calculateHighPrecisionSunrise Example.lib 25.317644 83.005495 80
                                   (Instant Example.midnight)
    = Instant corrected /\
    (corrected <= Example.sunrise_ms)%Z /\
    IZR (Example.sunrise_ms - corrected) < 1760 * sqrt (Rmax 80 0) + 2269.
Proof.
  apply highPrecisionSunrise_not_later; [lra|reflexivity].
Defined.




End SunriseCorrectionFacts.

(** ** Muhurat: the spiritual metrics *)

Section MetricsFacts.
Import JSMath MuhuratMetrics.

Lemma geb_Num (a b : R) : geb (Num a) (Num b) = true <-> b <= a.
Proof.
  unfold geb, leb. destruct (Rle_dec b a); split; intros; try lra;
    try reflexivity; try discriminate; try assumption.
Qed.

Lemma geb_Num_false (a b : R) : geb (Num a) (Num b) = false <-> a < b.
Proof.
  unfold geb, leb. destruct (Rle_dec b a); split; intros; try lra;
    try reflexivity; try discriminate.
Qed.

(** X22: the optimal activities grow with the duration: they always start
    with the three basic ones, and what is offered for a duration is
    offered, in the same order, for every longer one. *)
Theorem optimalActivities_monotone (times1 times2 : Muhurat.MuhuratTimes)
        (d1 d2 : R) :
  Muhurat.durationMinutes times1 = Num d1 ->
  Muhurat.durationMinutes times2 = Num d2 ->
  d1 <= d2 ->
  exists more1 more2,
    _getOptimalActivities times1 =
      (["Meditation"; "Prayer and mantras"; "Scripture reading"] ++ more1)%list
    /\
    _getOptimalActivities times2 = (_getOptimalActivities times1 ++ more2)%list.
Proof.
  intros E1 E2 Hd. unfold _getOptimalActivities. rewrite E1, E2.
  destruct (geb (Num d1) (Num 60)) eqn:A1;
    destruct (geb (Num d1) (Num 90)) eqn:A2;
    destruct (geb (Num d1) (Num 120)) eqn:A3;
    destruct (geb (Num d2) (Num 60)) eqn:B1;
    destruct (geb (Num d2) (Num 90)) eqn:B2;
    destruct (geb (Num d2) (Num 120)) eqn:B3;
    rewrite ?geb_Num, ?geb_Num_false in *;
    try lra;
    cbn [app];
    eexists; eexists; (split; [reflexivity|]);
    repeat (apply f_equal); reflexivity.
Qed.

Lemma optimalActivities_monotone_witness :
  exists more1 more2,
    _getOptimalActivities
      {| Muhurat.start := InvalidDate; Muhurat.end_ := InvalidDate;
         Muhurat.durationMinutes := Num 96 |} =
      (["Meditation"; "Prayer and mantras"; "Scripture reading"] ++ more1)%list
    /\
    _getOptimalActivities
      {| Muhurat.start := InvalidDate; Muhurat.end_ := InvalidDate;
         Muhurat.durationMinutes := Num 120 |} =
    (_getOptimalActivities
       {| Muhurat.start := InvalidDate; Muhurat.end_ := InvalidDate;
          Muhurat.durationMinutes := Num 96 |} ++ more2)%list.
Proof.
  apply (optimalActivities_monotone _ _ 96 120); [reflexivity|reflexivity|lra].
Defined.

Lemma geb_NaN (b : number) : geb NaN b = false.
Proof. destruct b; reflexivity. Qed.

(** X23: the activities by tradition.  Under the dynamic tradition the
    duration is NaN, every comparison with it is false and only the three
    basic activities are offered; the extended tradition (120 minutes) gets
    all eleven, every other tradition (96 minutes) the first eight. *)
Theorem optimalActivities_by_tradition lib (tradition : string)
        (sunrise : Date) (latitude longitude : R) (date timezone : value) :
  _getOptimalActivities
    (Muhurat._calculateMuhuratTimes lib tradition sunrise latitude longitude
                                    date timezone) =
  if String.eqb tradition "dynamic" then
    ["Meditation"; "Prayer and mantras"; "Scripture reading"]
  else if String.eqb tradition "extended" then
    ["Meditation"; "Prayer and mantras"; "Scripture reading";
     "Yoga practice"; "Pranayama (breathing exercises)";
     "Extended meditation"; "Spiritual study"; "Ritual worship";
     "Intensive sadhana"; "Group spiritual practices"; "Sacred chanting"]
  else
    ["Meditation"; "Prayer and mantras"; "Scripture reading";
     "Yoga practice"; "Pranayama (breathing exercises)";
     "Extended meditation"; "Spiritual study"; "Ritual worship"].
Proof.
  assert (H96 : forall s e,
             _getOptimalActivities
               {| Muhurat.start := s; Muhurat.end_ := e;
                  Muhurat.durationMinutes := Num 96 |} =
             ["Meditation"; "Prayer and mantras"; "Scripture reading";
              "Yoga practice"; "Pranayama (breathing exercises)";
              "Extended meditation"; "Spiritual study"; "Ritual worship"]).
  { intros s e. unfold _getOptimalActivities. cbn [Muhurat.durationMinutes].
    rewrite (proj2 (geb_Num 96 60)), (proj2 (geb_Num 96 90)),
      (proj2 (geb_Num_false 96 120)) by lra.
    reflexivity. }
  unfold Muhurat._calculateMuhuratTimes.
  destruct (String.eqb tradition "extended") eqn:Ee.
  - apply String.eqb_eq in Ee. subst tradition. cbn [String.eqb Ascii.eqb Bool.eqb].
    unfold _getOptimalActivities. cbn [Muhurat.durationMinutes].
    rewrite (proj2 (geb_Num 120 60)), (proj2 (geb_Num 120 90)),
      (proj2 (geb_Num 120 120)) by lra.
    reflexivity.
  - destruct (String.eqb tradition "smarta") eqn:Es.
    + apply String.eqb_eq in Es. subst tradition.
      cbn [String.eqb Ascii.eqb Bool.eqb]. apply H96.
    + destruct (String.eqb tradition "dynamic"); [|apply H96].
      unfold _getOptimalActivities. cbn [Muhurat.durationMinutes].
      replace (Math_round _) with NaN by reflexivity.
      rewrite !geb_NaN. reflexivity.
Qed.

Section WithMoment.
Variable dayOfYear : Date -> number.
Variable daysSinceKnownNewMoon : Date -> number.

(** X24: the seasonal description by day of the year: days 355 to 366 and
    1 to 45 are the peak season, 46 to 135 the favorable period, 136 to
    225 (factor 0.9) the moderate influence and 226 to 354 (factor 1.0)
    the balanced energy; a date without a day of the year (NaN) gets the
    balanced energy. *)
Theorem seasonal_description_by_day (date : Date) :
  (forall n : Z,
      dayOfYear date = Num (IZR n) ->
      _getSeasonalDescription (_calculateSeasonalFactor dayOfYear date) =
      if ((355 <=? n) || (n <=? 45))%Z then
        "Peak spiritual season - maximum benefits from practices"
      else if (n <=? 135)%Z then
        "Favorable spiritual period - enhanced meditation effects"
      else if (n <=? 225)%Z then
        "Moderate spiritual influence - maintain regular practice"
      else
        "Balanced spiritual energy - consistent practice recommended") /\
  (dayOfYear date = NaN ->
   _getSeasonalDescription (_calculateSeasonalFactor dayOfYear date) =
   "Balanced spiritual energy - consistent practice recommended").
Proof.
  assert (D12 : _getSeasonalDescription (Num 1.2) =
                "Peak spiritual season - maximum benefits from practices").
  { unfold _getSeasonalDescription, gtb, ltb. decide_R; reflexivity. }
  assert (D11 : _getSeasonalDescription (Num 1.1) =
                "Favorable spiritual period - enhanced meditation effects").
  { unfold _getSeasonalDescription, gtb, ltb. decide_R; reflexivity. }
  assert (D09 : _getSeasonalDescription (Num 0.9) =
                "Moderate spiritual influence - maintain regular practice").
  { unfold _getSeasonalDescription, gtb, ltb. decide_R; reflexivity. }
  assert (D10 : _getSeasonalDescription (Num 1.0) =
                "Balanced spiritual energy - consistent practice recommended").
  { unfold _getSeasonalDescription, gtb, ltb. decide_R; reflexivity. }
  split.
  - intros n Hn. unfold _calculateSeasonalFactor. rewrite Hn.
    assert (G : forall k : Z, geb (Num (IZR n)) (Num (IZR k)) = (k <=? n)%Z).
    { intros k. destruct (Z.leb_spec k n) as [H|H].
      - apply geb_Num, IZR_le, H.
      - apply geb_Num_false, IZR_lt, H. }
    assert (L : forall k : Z, leb (Num (IZR n)) (Num (IZR k)) = (n <=? k)%Z).
    { intros k. destruct (Z.leb_spec n k) as [H|H].
      - apply (geb_Num (IZR k) (IZR n)), IZR_le, H.
      - apply (geb_Num_false (IZR k) (IZR n)), IZR_lt, H. }
    rewrite (G 355%Z), (G 46%Z), (G 136%Z), (L 45%Z), (L 135%Z), (L 225%Z).
    destruct (Z.leb_spec 355 n), (Z.leb_spec n 45), (Z.leb_spec 46 n),
      (Z.leb_spec n 135), (Z.leb_spec 136 n), (Z.leb_spec n 225);
      cbn [orb andb]; try lia; assumption.
  - intros Hn. unfold _calculateSeasonalFactor. rewrite Hn. exact D10.
Qed.

Lemma truncate_toward_zero (y : R) :
  (0 <= y -> IZR (truncate y) <= y) /\ (y <= 0 -> y <= IZR (truncate y)).
Proof.
  unfold truncate. destruct (Rle_dec 0 y) as [H|H].
  - destruct (base_Int_part y) as [H1 _]. split; intros.
    + exact H1.
    + replace y with 0 by lra. rewrite (Int_part_IZR 0). lra.
  - destruct (base_Int_part (- y)) as [H1 _]. rewrite opp_IZR.
    split; intros; lra.
Qed.

Lemma rem_below_one (x : R) :
  x < 1 -> exists r, rem (Num x) (Num 29.53) = Num r /\ r < 1.
Proof.
  intros Hx. unfold rem. destruct (Req_dec_T 29.53 0) as [E|_]; [lra|].
  eexists. split; [reflexivity|].
  destruct (Rle_dec 0 x) as [H0|H0].
  - rewrite truncate_small; [lra|]. split.
    + apply Rlt_le_trans with 0; [lra|]. apply Rmult_le_pos; lra.
    + apply Rmult_lt_reg_r with 29.53; [lra|].
      unfold Rdiv. rewrite Rmult_assoc, Rinv_l by lra. lra.
  - destruct (truncate_toward_zero (x / 29.53)) as [_ H].
    assert (Hq : x / 29.53 <= 0).
    { apply Rmult_le_reg_r with 29.53; [lra|].
      unfold Rdiv. rewrite Rmult_assoc, Rinv_l by lra. lra. }
    specialize (H Hq).
    assert (x <= 29.53 * IZR (truncate (x / 29.53))).
    { replace x with (29.53 * (x / 29.53)) at 1 by (field; lra).
      apply Rmult_le_compat_l; lra. }
    lra.
Qed.

(** X25: the moon phase is "New Moon" whenever the whole-day difference to
    the reference new moon of 11 January 2024 is below 1: the remainder
    keeps the sign of the difference, so every date before the reference
    is reported as a new moon; and the illumination is a number between 0
    and 1. *)
Theorem moonPhase_before_reference (date : Date) (days : R) :
  daysSinceKnownNewMoon date = Num days -> days < 1 ->
  phase (_calculateMoonPhase daysSinceKnownNewMoon date) = "New Moon" /\
  exists i,
    illumination (_calculateMoonPhase daysSinceKnownNewMoon date) = Num i /\
    0 <= i <= 1.
Proof.
  intros Hd Hlt. unfold _calculateMoonPhase. rewrite Hd.
  destruct (rem_below_one days Hlt) as (r & -> & Hr).
  assert (E : ltb (Num r) (Num 1) = true).
  { unfold ltb. destruct (Rlt_dec r 1); [reflexivity|lra]. }
  rewrite E. cbn [orb phase illumination].
  split; [reflexivity|].
  eexists. split; [reflexivity|].
  split; [apply Rabs_pos|].
  apply Rabs_le. pose proof (COS_bound (r / 29.53 * 2 * PI)). lra.
Qed.

End WithMoment.

Lemma moonPhase_before_reference_witness :
  phase (_calculateMoonPhase (fun _ => Num (-100))
                             (Instant Example.midnight)) = "New Moon" /\
  exists i,
    illumination (_calculateMoonPhase (fun _ => Num (-100))
                                      (Instant Example.midnight)) = Num i /\
    0 <= i <= 1.
Proof.
  apply (moonPhase_before_reference (fun _ => Num (-100))
                                    (Instant Example.midnight) (-100));
    [reflexivity|lra].
Defined.

End MetricsFacts.

(** ** Index: the facade's [calculate] *)

Section FacadeFacts.
Import JSMath BrahmaMuhurat.

Section WithLibraries.
Variable lib : Libraries.
Variable precision : string.
Variable traditionType : string.
Variable refractionModel : string.
Variable names : list string.

(** X26: [calculate] of the facade returns exactly when its own
    validation passes and the core calculation returns, with the core's
    result; and whatever goes wrong, in the validation or in the core,
    whatever the class of the error, it throws a plain [Error] whose
    message is "Brahma Muhurat calculation failed: " followed by the
    message of the original error. *)
Theorem facade_calculate (params : Muhurat.Params) :
  (forall result,
      calculate lib precision traditionType refractionModel names params
      = Normal result <->
      _validateCalculationParams lib names params = Normal tt /\
      Muhurat.calculate lib precision traditionType refractionModel params
      = Normal result) /\
  (forall e,
      calculate lib precision traditionType refractionModel names params
      = Throw e <->
      exists cause,
        (_validateCalculationParams lib names params = Throw cause \/
         _validateCalculationParams lib names params = Normal tt /\
         Muhurat.calculate lib precision traditionType refractionModel params
         = Throw cause) /\
        e = mkExn Error ("Brahma Muhurat calculation failed: "
                         ++ message cause)).
Proof.
  unfold calculate.
  destruct (_validateCalculationParams lib names params) as [[]|cause];
    cbn [bind try_catch].
  - destruct (Muhurat.calculate lib precision traditionType refractionModel
                                params) as [r|cause]; cbn [bind try_catch].
    + split.
      * intros result. split; [intros [= <-]; split; reflexivity|].
        intros [_ [= <-]]. reflexivity.
      * intros e. split; [discriminate|].
        intros (c & [H|[_ H]] & _); discriminate.
    + split.
      * intros result. split; [discriminate|]. intros [_ H]. discriminate.
      * intros e. unfold throw. split.
        -- intros [= <-]. exists cause. split; [right; split|]; reflexivity.
        -- intros (c & [H|[_ [= <-]]] & ->); [discriminate|reflexivity].
  - split.
    + intros result. split; [discriminate|]. intros [H _]. discriminate.
    + intros e. unfold throw. split.
      * intros [= <-]. exists cause. split; [left|]; reflexivity.
      * intros (c & [[= <-]|[H _]] & ->); [reflexivity|discriminate].
Qed.

(** X27: a string that no format parses is reported through three layers:
    for numeric coordinates in range, a non-empty date string that Moment
    cannot parse and a non-empty timezone string, the facade throws
    "Brahma Muhurat calculation failed: Invalid date: Invalid date format: "
    followed by the string, before the timezone is looked up. *)
Theorem facade_invalid_date (params : Muhurat.Params) (lat lon : R)
        (s tz : string) :
  Muhurat.latitude params = VNumber (Num lat) ->
  Muhurat.longitude params = VNumber (Num lon) ->
  -90 <= lat <= 90 -> -180 <= lon <= 180 ->
  Muhurat.date params = VString s -> s <> "" ->
  Muhurat.timezone params = VString tz -> tz <> "" ->
  (forall format, moment_parse_strict lib s format = InvalidDate) ->
  moment_parse lib (VString s) = InvalidDate ->
  calculate lib precision traditionType refractionModel names params =
  throw Error ("Brahma Muhurat calculation failed: Invalid date: "
               ++ "Invalid date format: " ++ s).
Proof.
  intros Hlat Hlon Rlat Rlon Hdate Hs Htz Ht Hstrict Hparse.
  unfold calculate, _validateCalculationParams.
  rewrite Hlat, Hlon, Hdate, Htz. cbn [typeof String.eqb Ascii.eqb Bool.eqb negb orb falsy].
  apply String.eqb_neq in Hs, Ht. rewrite Hs, Ht. cbn [orb].
  rewrite (proj2 (validateCoordinates_returns _ _))
    by (exists lat, lon; repeat split; try reflexivity; lra).
  cbn [bind].
  assert (E : TimeUtil.parseDateInput lib (VString s) =
              throw Error ("Invalid date format: " ++ s)).
  { unfold TimeUtil.parseDateInput.
    assert (F : forall fs, TimeUtil.first_valid lib s fs = None).
    { induction fs as [|f fs IH]; cbn; [reflexivity|].
      rewrite Hstrict. cbn. exact IH. }
    rewrite F, Hparse. reflexivity. }
  rewrite E. reflexivity.
Qed.

End WithLibraries.

Lemma facade_invalid_date_witness :
  calculate Example.lib "high" "standard" "bennett" ["Asia/Kolkata"]
    {| Muhurat.latitude := VNumber (Num 25.317644);
       Muhurat.longitude := VNumber (Num 83.005495);
       Muhurat.elevation := None;
       Muhurat.date := VString "tomorrow";
       Muhurat.timezone := VString "Asia/Kolkata";
       Muhurat.pressure := None;
       Muhurat.temperature := None;
       Muhurat.humidity := None |} =
  throw Error ("Brahma Muhurat calculation failed: Invalid date: "
               ++ "Invalid date format: " ++ "tomorrow").
Proof.
  apply (facade_invalid_date Example.lib "high" "standard" "bennett"
           ["Asia/Kolkata"] _ 25.317644 83.005495 "tomorrow" "Asia/Kolkata");
    try reflexivity; try lra; try discriminate.
  intros format. cbn. destruct (String.eqb format "YYYY-MM-DD"); reflexivity.
Defined.

End FacadeFacts.
